(** * Prompt-engineering playground backend: dispatch, metrics, aggregation

    A shallow embedding of [backend/llm_service_fixed.py] (class
    [LLMService]) and of the aggregation code of [backend/main.py]
    ([run_experiment], [calculate_aggregate_metrics]), followed by the
    properties of the specification that concern them.

    Conventions of the embedding.
    - A Python [str] is a [string]: the UTF-8 bytes of the text.  [len] and
      slicing count code points (a byte [10xxxxxx] continues the code point
      before it).  [str.lower], [str.split] and [str.strip] are exact on
      ASCII text; a byte above 127 is kept as it is and is never white
      space.
    - A Python [int] is a [Z] (or a [nat] where it is a length or a count).
      A Python [float] is read as the exact rational it denotes, a [Q] kept
      in lowest terms by [Qred]; rounding to binary64 is not modelled.
    - A Python [dict] with string keys is a [gmap string _].
    - A call that may raise returns a [result]: [Ok v] or [Raise msg] with
      [msg] the text of the exception ([str(e)]).
    - Clock readings, random draws and the answers of the remote providers
      are inputs, gathered in the record [world]. *)

From Stdlib Require Import Ascii String QArith Qreduction Qround Qminmax Lqa.
From stdpp Require Import gmap strings list fin_maps.

#[local] Open Scope string_scope.
#[local] Set Warnings "-register-all".

(** ** Python strings *)

Module PyStr.

Definition code (c : ascii) : nat := nat_of_ascii c.

(** [str.isspace] on one ASCII character: TAB, LF, VT, FF, CR, the four
    separators FS GS RS US, and the space. *)
Definition isspace (c : ascii) : bool :=
  ((9 <=? code c) && (code c <=? 13) || (28 <=? code c) && (code c <=? 32))%nat.

Definition lower_char (c : ascii) : ascii :=
  if ((65 <=? code c) && (code c <=? 90))%nat
  then ascii_of_nat (code c + 32) else c.

(** [s.lower()] *)
Fixpoint lower (s : string) : string :=
  match s with
  | EmptyString => EmptyString
  | String c s' => String (lower_char c) (lower s')
  end.

(** A continuation byte of a UTF-8 sequence. *)
Definition is_cont (c : ascii) : bool :=
  ((128 <=? code c) && (code c <? 192))%nat.

(** [len(s)]: the number of code points. *)
Fixpoint len (s : string) : nat :=
  match s with
  | EmptyString => 0
  | String c s' => if is_cont c then len s' else S (len s')
  end.

(** [s[:n]]: the first [n] code points. *)
Fixpoint take (n : nat) (s : string) : string :=
  match s with
  | EmptyString => EmptyString
  | String c s' =>
      if is_cont c then String c (take n s')
      else match n with
           | O => EmptyString
           | S n' => String c (take n' s')
           end
  end.

(** [s.startswith(p)] *)
Fixpoint startswith (p s : string) : bool :=
  match p, s with
  | EmptyString, _ => true
  | String _ _, EmptyString => false
  | String a p', String b s' => Ascii.eqb a b && startswith p' s'
  end.

(** [sub in s] *)
Fixpoint contains (sub s : string) : bool :=
  startswith sub s ||
  match s with
  | EmptyString => false
  | String _ s' => contains sub s'
  end.

(** [s.endswith(suf)] *)
Fixpoint endswith (suf s : string) : bool :=
  String.eqb suf s ||
  match s with
  | EmptyString => false
  | String _ s' => endswith suf s'
  end.

Definition of_rev (acc : list ascii) : string :=
  string_of_list_ascii (rev acc).

Definition flush (acc : list ascii) : list string :=
  match acc with
  | [] => []
  | _ :: _ => [of_rev acc]
  end.

(** [s.split()]: the maximal runs of characters that are not white space.
    [acc] holds the current run, last character first. *)
Fixpoint split_go (acc : list ascii) (s : string) : list string :=
  match s with
  | EmptyString => flush acc
  | String c s' =>
      if isspace c then flush acc ++ split_go [] s'
      else split_go (c :: acc) s'
  end.

Definition split (s : string) : list string := split_go [] s.

(** [s.split(sep)] for a separator of one character: the pieces between
    the occurrences of [sep], empty pieces included. *)
Fixpoint split_on_go (sep : ascii) (acc : list ascii) (s : string) : list string :=
  match s with
  | EmptyString => [of_rev acc]
  | String c s' =>
      if Ascii.eqb c sep then of_rev acc :: split_on_go sep [] s'
      else split_on_go sep (c :: acc) s'
  end.

Definition split_on (sep : ascii) (s : string) : list string :=
  split_on_go sep [] s.

Fixpoint lstrip (s : string) : string :=
  match s with
  | EmptyString => EmptyString
  | String c s' => if isspace c then lstrip s' else s
  end.

(** [s.strip()] *)
Definition strip (s : string) : string :=
  String.rev (lstrip (String.rev (lstrip s))).

(** Truth value of a string: it is not empty. *)
Definition truthy (s : string) : bool :=
  match s with
  | EmptyString => false
  | String _ _ => true
  end.

(** [re.split(r'[.!?]+', s)]: the pieces between the maximal runs of the
    characters [.], [!] and [?].  [in_run] tells that the character before
    was one of them. *)
Definition is_terminator (c : ascii) : bool :=
  Ascii.eqb c "." || Ascii.eqb c "!" || Ascii.eqb c "?".

Fixpoint re_split_go (acc : list ascii) (in_run : bool) (s : string) : list string :=
  match s with
  | EmptyString => [of_rev acc]
  | String c s' =>
      if is_terminator c then
        if in_run then re_split_go [] true s'
        else of_rev acc :: re_split_go [] true s'
      else re_split_go (c :: acc) false s'
  end.

Definition re_split_terminators (s : string) : list string :=
  re_split_go [] false s.

End PyStr.

(** ** Python numbers *)

Module PyNum.

Definition of_nat (n : nat) : Q := inject_Z (Z.of_nat n).

Definition add (a b : Q) : Q := Qred (a + b).
Definition sub (a b : Q) : Q := Qred (a - b).
Definition mul (a b : Q) : Q := Qred (a * b).
(** True division; every use in the source is guarded against a zero
    divisor. *)
Definition div (a b : Q) : Q := Qred (a / b).

Definition max (a b : Q) : Q := if Qle_bool b a then a else b.
Definition min (a b : Q) : Q := if Qle_bool a b then a else b.

(** [sum(l)] *)
Definition sum (l : list Q) : Q := fold_left add l 0%Q.

(** [int(x)]: truncation towards zero. *)
Definition int (x : Q) : Z :=
  if Qle_bool 0 x then Qfloor x else Qceiling x.

End PyNum.

(** ** models.py *)

Module Models.

Inductive ModelProvider : Type := OPENAI | ANTHROPIC | HUGGINGFACE.

(** The string value of the enumeration member. *)
Definition provider_value (p : ModelProvider) : string :=
  match p with
  | OPENAI => "openai"
  | ANTHROPIC => "anthropic"
  | HUGGINGFACE => "huggingface"
  end.

Record ModelConfig : Type := {
  provider : ModelProvider;
  model_name : string;
  temperature : Q;
  max_tokens : option Z;
  top_p : option Q;
  frequency_penalty : option Q;
  presence_penalty : option Q
}.

Record MetricsData : Type := {
  response_length : nat;
  token_count : Z;
  latency_ms : Q;
  cost_estimate : Q;
  sentiment_score : option Q;
  readability_score : option Q;
  coherence_score : option Q
}.

End Models.

(** ** Values of dynamically typed dictionaries, and calls that may raise *)

Inductive pyval : Type :=
| PNone
| PStr (s : string)
| PNum (q : Q)
| PDict (d : gmap string pyval).

Inductive result (A : Type) : Type :=
| Ok (a : A)
| Raise (msg : string).

Arguments Ok {A} a.
Arguments Raise {A} msg.

Definition bind {A B : Type} (r : result A) (k : A -> result B) : result B :=
  match r with
  | Ok a => k a
  | Raise msg => Raise msg
  end.

Notation "x <- r ;; k" := (bind r (fun x => k))
  (at level 100, r at next level, right associativity).

(** ** llm_service_fixed.py: the metrics of a response *)

Module Metrics.
Import Models.

(** [cost_per_1k_tokens] of [_estimate_cost]. *)
Definition cost_per_1k_tokens : gmap string Q :=
  <["gpt-4" := 3 # 100]>
  (<["gpt-3.5-turbo" := 2 # 1000]>
  (<["claude-3-opus" := 15 # 1000]>
  (<["claude-3-sonnet" := 3 # 1000]> ∅))).

Definition _estimate_cost (token_count : Z) (model_config : ModelConfig) : Q :=
  let rate := default (1 # 1000) (cost_per_1k_tokens !! model_name model_config) in
  PyNum.mul (PyNum.div (inject_Z token_count) 1000) rate.

Definition positive_words : list string :=
  ["good"; "great"; "excellent"; "amazing"; "wonderful"; "fantastic"].
Definition negative_words : list string :=
  ["bad"; "terrible"; "awful"; "horrible"; "poor"; "disappointing"].

(** [word in words] for a list of strings. *)
Definition inb (word : string) (words : list string) : bool :=
  existsb (String.eqb word) words.

(** [sum(1 for x in l if f x)] *)
Definition count_if {A : Type} (f : A -> bool) (l : list A) : nat :=
  length (List.filter f l).

Definition _calculate_sentiment (text : string) : Q :=
  let words := PyStr.split (PyStr.lower text) in
  let positive_count := Z.of_nat (count_if (fun word => inb word positive_words) words) in
  let negative_count := Z.of_nat (count_if (fun word => inb word negative_words) words) in
  if (positive_count + negative_count =? 0)%Z then 0%Q
  else PyNum.div (inject_Z (positive_count - negative_count))
                 (inject_Z (positive_count + negative_count)).

Definition vowels : string := "aeiouy".

(** One turn of the loop of [_count_syllables]; the state is
    [(syllable_count, previous_was_vowel)]. *)
Definition syllable_step (st : Z * bool) (char : ascii) : Z * bool :=
  let '(syllable_count, previous_was_vowel) := st in
  let is_vowel := PyStr.contains (String char EmptyString) vowels in
  (if is_vowel && negb previous_was_vowel
   then (syllable_count + 1)%Z else syllable_count,
   is_vowel).

Definition _count_syllables (word : string) : Z :=
  let word := PyStr.lower word in
  let '(syllable_count, _) :=
    fold_left syllable_step (list_ascii_of_string word) (0%Z, false) in
  let syllable_count :=
    if PyStr.endswith "e" word then (syllable_count - 1)%Z else syllable_count in
  Z.max 1 syllable_count.

Definition _calculate_readability (text : string) : Q :=
  let sentences := length (PyStr.re_split_terminators text) in
  let words := length (PyStr.split text) in
  let syllables :=
    fold_left Z.add (List.map _count_syllables (PyStr.split text)) 0%Z in
  if (sentences =? 0)%nat || (words =? 0)%nat then 0%Q
  else
    let score :=
      PyNum.sub
        (PyNum.sub (206835 # 1000)
           (PyNum.mul (1015 # 1000)
              (PyNum.div (PyNum.of_nat words) (PyNum.of_nat sentences))))
        (PyNum.mul (846 # 10)
           (PyNum.div (inject_Z syllables) (PyNum.of_nat words))) in
    PyNum.div (PyNum.max 0 (PyNum.min 100 score)) 100.

Definition _calculate_coherence (text : string) : Q :=
  let sentences := PyStr.split_on "." text in
  if (length sentences <? 2)%nat then 1%Q
  else
    let lengths :=
      List.map (fun sentence => PyNum.of_nat (length (PyStr.split sentence)))
        (List.filter (fun sentence => PyStr.truthy (PyStr.strip sentence)) sentences) in
    match lengths with
    | [] => 0%Q
    | _ :: _ =>
        let avg_length := PyNum.div (PyNum.sum lengths) (PyNum.of_nat (length lengths)) in
        let variance :=
          PyNum.div
            (PyNum.sum
               (List.map (fun l => PyNum.mul (PyNum.sub l avg_length)
                                             (PyNum.sub l avg_length)) lengths))
            (PyNum.of_nat (length lengths)) in
        PyNum.div 1 (PyNum.add 1 (PyNum.div variance (PyNum.max avg_length 1)))
    end.

(** [_calculate_metrics].  No operation of its [try] block can raise on a
    string (every division is guarded), so the [except] branch, which
    returns the four basic metrics alone, is never taken. *)
Definition _calculate_metrics (response : string) (latency : Q)
    (model_config : ModelConfig) : MetricsData :=
  let response_length := PyStr.len response in
  let token_count := Z.of_nat (length (PyStr.split response)) in
  let cost_estimate := _estimate_cost token_count model_config in
  let sentiment_score := _calculate_sentiment response in
  let readability_score := _calculate_readability response in
  let coherence_score := _calculate_coherence response in
  {| response_length := response_length;
     token_count := token_count;
     latency_ms := latency;
     cost_estimate := cost_estimate;
     sentiment_score := Some sentiment_score;
     readability_score := Some readability_score;
     coherence_score := Some coherence_score |}.

End Metrics.

(** ** llm_service_fixed.py: dispatch and fallback *)

Module LLMService.
Import Models Metrics.

(** What a provider call sends back. *)
Record provider_reply : Type := {
  reply_text : string;
  reply_prompt_tokens : Z;
  reply_completion_tokens : Z;
  reply_total_tokens : Z
}.

(** The inputs one call of [generate_response] reads from outside: two
    clock readings (seconds), the outcome of the remote call, and the
    random draws, each [random()] value lying in [0, 1) and
    [rand_choice] being the index drawn by [random.choice]. *)
Record world : Type := {
  clock_start : Q;
  clock_end : Q;
  provider_answer : result provider_reply;
  rand_choice : nat;
  rand_cost : Q;
  rand_sentiment : Q;
  rand_readability : Q
}.

(** The fields of [LLMService]: whether each client was created, and the
    demo switch.  [hf_pipeline] is created on first use and does not
    change what a call returns. *)
Record service : Type := {
  openai_client : bool;
  anthropic_client : bool;
  demo_mode : bool
}.

Record model_info_t : Type := {
  info_provider : string;
  info_model : string;
  info_demo_mode : bool
}.

(** The dictionary returned by [generate_response]; the success path sets
    the key [model_config], the demo path the key [model_info]. *)
Record response_data : Type := {
  response : string;
  token_usage : gmap string Q;
  metrics : MetricsData;
  model_config : option ModelConfig;
  model_info : option model_info_t
}.

Definition nl : string := String (ascii_of_nat 10) EmptyString.

(** [random.uniform(a, b)] from the draw [u] of [random()]. *)
Definition uniform (a b u : Q) : Q :=
  PyNum.add a (PyNum.mul (PyNum.sub b a) u).

Definition _generate_openai_response (self : service) (w : world)
    : result (string * gmap string Q) :=
  if negb (openai_client self) then Raise "OpenAI client not initialized"
  else
    r <- provider_answer w ;;
    Ok (reply_text r,
        <["prompt_tokens" := inject_Z (reply_prompt_tokens r)]>
        (<["completion_tokens" := inject_Z (reply_completion_tokens r)]>
        (<["total_tokens" := inject_Z (reply_total_tokens r)]> ∅))).

Definition _generate_anthropic_response (self : service) (w : world)
    : result (string * gmap string Q) :=
  if negb (anthropic_client self) then Raise "Anthropic client not initialized"
  else
    r <- provider_answer w ;;
    Ok (reply_text r,
        <["input_tokens" := inject_Z (reply_prompt_tokens r)]>
        (<["output_tokens" := inject_Z (reply_completion_tokens r)]>
        (<["total_tokens" :=
             inject_Z (reply_prompt_tokens r + reply_completion_tokens r)]> ∅))).

Definition _generate_huggingface_response (self : service) (w : world)
    : result (string * gmap string Q) :=
  r <- provider_answer w ;;
  let response_text := reply_text r in
  Ok (response_text,
      <["estimated_tokens" := PyNum.of_nat (length (PyStr.split response_text))]> ∅).

Definition demo_responses (p : ModelProvider) : list string :=
  match p with
  | OPENAI =>
      ["🔧 **Demo Mode Response** - This simulates OpenAI's GPT response. In production, this would be generated by the actual OpenAI API with full language model capabilities.";
       "📱 **Mock Response** - This demonstrates how OpenAI's models would respond to your prompt. The real implementation connects to OpenAI's API for authentic AI-generated content.";
       "⚡ **Playground Demo** - This sample response shows the expected output format from OpenAI's language models. Actual deployment uses live API connections."]
  | ANTHROPIC =>
      ["🔧 **Demo Mode Response** - This simulates Claude's response style. In production, Anthropic's AI assistant would provide thoughtful, nuanced responses with strong reasoning capabilities.";
       "📱 **Mock Response** - This demonstrates Claude's approach to helpful, harmless, and honest responses. Real deployment connects to Anthropic's API.";
       "⚡ **Playground Demo** - This sample shows how Claude typically structures detailed, ethical responses. Actual implementation uses live Anthropic API."]
  | HUGGINGFACE =>
      ["🔧 **Demo Mode Response** - This simulates output from Hugging Face models. Production deployment would use actual open-source transformer models from the Hub.";
       "📱 **Mock Response** - This demonstrates the variety of responses possible with Hugging Face's ecosystem of community models.";
       "⚡ **Playground Demo** - This sample shows typical output from open-source language models. Real implementation connects to Hugging Face inference."]
  end.

Definition fallback_banner : string :=
  "⚠️ **API Quota/Auth Error - Fallback Mode Active**".

Definition fallback_note : string :=
  "*Note: This demo response was triggered due to API quota limits or authentication issues. Please check your API keys and quota status.*".

(** [_generate_demo_response].  The simulated delay only moves the clock
    reading [clock_end] taken after it. *)
Definition _generate_demo_response (self : service) (w : world)
    (prompt : string) (cfg : ModelConfig) (start_time : Q) : response_data :=
  let is_fallback_mode := negb (demo_mode self) in
  let responses := demo_responses (provider cfg) in
  let response_text := nth (rand_choice w mod length responses) responses "" in
  let response_text :=
    if is_fallback_mode
    then fallback_banner +:+ nl +:+ nl +:+ response_text +:+ nl +:+ nl +:+ fallback_note
    else response_text in
  let response_text :=
    if PyStr.contains "question" (PyStr.lower prompt) || PyStr.contains "?" prompt
    then response_text +:+ nl +:+ nl +:+ "💡 *Your prompt: '" +:+ PyStr.take 100 prompt
         +:+ (if (100 <? PyStr.len prompt)%nat then "..." else "")
         +:+ "' - This showcases the interactive nature of the prompt engineering playground.*"
    else response_text in
  let latency := PyNum.mul (PyNum.sub (clock_end w) start_time) 1000 in
  let word_count := length (PyStr.split response_text) in
  let token_count := PyNum.int (PyNum.mul (PyNum.of_nat word_count) (13 # 10)) in
  let metrics :=
    {| response_length := PyStr.len response_text;
       token_count := token_count;
       latency_ms := latency;
       cost_estimate := uniform (1 # 10000) (1 # 1000) (rand_cost w);
       sentiment_score := Some (uniform (3 # 10) (8 # 10) (rand_sentiment w));
       readability_score := Some (uniform (6 # 10) (9 # 10) (rand_readability w));
       coherence_score := None |} in
  let prompt_tokens := PyNum.mul (PyNum.of_nat (length (PyStr.split prompt))) (13 # 10) in
  {| response := response_text;
     metrics := metrics;
     token_usage :=
       <["prompt_tokens" := prompt_tokens]>
       (<["completion_tokens" := inject_Z token_count]>
       (<["total_tokens" := PyNum.add prompt_tokens (inject_Z token_count)]> ∅));
     model_config := None;
     model_info :=
       Some {| info_provider := provider_value (provider cfg);
               info_model := model_name cfg;
               info_demo_mode := true |} |}.

Definition quota_keywords : list string :=
  ["quota"; "rate limit"; "429"; "insufficient_quota"; "exceeded"].
Definition auth_keywords : list string :=
  ["authentication"; "api key"; "unauthorized"; "401"].

(** [any(keyword in error_message for keyword in keywords)] *)
Definition any_keyword (keywords : list string) (error_message : string) : bool :=
  existsb (fun keyword => PyStr.contains keyword error_message) keywords.

(** The chain of tests on [model_config.provider] in the [try] block of
    [generate_response]; its last branch (unsupported provider) cannot be
    reached with the three members of the enumeration. *)
Definition call_provider (self : service) (w : world) (cfg : ModelConfig)
    : result (string * gmap string Q) :=
  match provider cfg with
  | OPENAI => _generate_openai_response self w
  | ANTHROPIC => _generate_anthropic_response self w
  | HUGGINGFACE => _generate_huggingface_response self w
  end.

Definition generate_response (self : service) (w : world)
    (prompt : string) (cfg : ModelConfig) : result response_data :=
  let start_time := clock_start w in
  if demo_mode self then Ok (_generate_demo_response self w prompt cfg start_time)
  else
    match call_provider self w cfg with
    | Ok (text, usage) =>
        let end_time := clock_end w in
        let latency := PyNum.mul (PyNum.sub end_time start_time) 1000 in
        let metrics := _calculate_metrics text latency cfg in
        Ok {| response := text;
              token_usage := usage;
              metrics := metrics;
              model_config := Some cfg;
              model_info := None |}
    | Raise e =>
        let error_message := PyStr.lower e in
        if any_keyword quota_keywords error_message
        then Ok (_generate_demo_response self w prompt cfg start_time)
        else if any_keyword auth_keywords error_message
        then Ok (_generate_demo_response self w prompt cfg start_time)
        else Raise e
    end.

(** The three outcomes the [except] block of [generate_response]
    distinguishes, as a function of the exception's message. *)
Inductive ErrorKind : Type := Quota | Auth | Other.

Definition classify (e : string) : ErrorKind :=
  let error_message := PyStr.lower e in
  if any_keyword quota_keywords error_message then Quota
  else if any_keyword auth_keywords error_message then Auth
  else Other.

(** A response carries the fallback mark when its text opens with the
    banner that [_generate_demo_response] puts in fallback mode. *)
Definition is_fallback (r : response_data) : bool :=
  PyStr.startswith fallback_banner (response r).

End LLMService.

(** ** main.py: running an experiment and aggregating its results *)

Module Main.
Import Models LLMService.

Definition opt_num (o : option Q) : pyval :=
  match o with
  | Some q => PNum q
  | None => PNone
  end.

(** [model_config.dict()] *)
Definition config_dict (c : ModelConfig) : gmap string pyval :=
  <["provider" := PStr (provider_value (provider c))]>
  (<["model_name" := PStr (model_name c)]>
  (<["temperature" := PNum (temperature c)]>
  (<["max_tokens" := opt_num (inject_Z <$> max_tokens c)]>
  (<["top_p" := opt_num (top_p c)]>
  (<["frequency_penalty" := opt_num (frequency_penalty c)]>
  (<["presence_penalty" := opt_num (presence_penalty c)]> ∅)))))).

(** [response_data["metrics"].dict()] *)
Definition metrics_dict (m : MetricsData) : gmap string pyval :=
  <["response_length" := PNum (PyNum.of_nat (response_length m))]>
  (<["token_count" := PNum (inject_Z (token_count m))]>
  (<["latency_ms" := PNum (latency_ms m)]>
  (<["cost_estimate" := PNum (cost_estimate m)]>
  (<["sentiment_score" := opt_num (sentiment_score m)]>
  (<["readability_score" := opt_num (readability_score m)]>
  (<["coherence_score" := opt_num (coherence_score m)]> ∅)))))).

(** The entry that one turn of the loop of [run_experiment] appends to
    [all_responses]: the [try] branch on a returned value, the [except]
    branch on an exception.  [run_num] counts from 0.  Saving the result
    in the background does not change the entry. *)
Definition run_entry (cfg : ModelConfig) (run_num : nat)
    (outcome : result response_data) : gmap string pyval :=
  match outcome with
  | Ok response_data =>
      <["model_config" := PDict (config_dict cfg)]>
      (<["response" := PStr (response response_data)]>
      (<["metrics" := PDict (metrics_dict (metrics response_data))]>
      (<["token_usage" := PDict (PNum <$> token_usage response_data)]>
      (<["run_number" := PNum (PyNum.of_nat (run_num + 1))]> ∅))))
  | Raise e =>
      <["model_config" := PDict (config_dict cfg)]>
      (<["error" := PStr e]>
      (<["run_number" := PNum (PyNum.of_nat (run_num + 1))]> ∅))
  end.

(** [key in r] *)
Definition has_key (key : string) (r : gmap string pyval) : bool :=
  match r !! key with
  | Some _ => true
  | None => false
  end.

(** [r["metrics"].get(key, 0)] *)
Definition metric_value (key : string) (r : gmap string pyval) : result pyval :=
  match r !! "metrics" with
  | Some (PDict m) => Ok (default (PNum 0) (m !! key))
  | Some _ => Raise "object has no attribute 'get'"
  | None => Raise "'metrics'"
  end.

Fixpoint collect {A B : Type} (f : A -> result B) (l : list A) : result (list B) :=
  match l with
  | [] => Ok []
  | x :: l' => y <- f x ;; ys <- collect f l' ;; Ok (y :: ys)
  end.

(** The operand of an arithmetic operation or comparison must be a
    number. *)
Definition as_number (v : pyval) : result Q :=
  match v with
  | PNum q => Ok q
  | _ => Raise "unsupported operand type(s)"
  end.

(** [min(values)] and [max(values)] of a list that is not empty. *)
Definition list_min (x : Q) (l : list Q) : Q := fold_left PyNum.min l x.
Definition list_max (x : Q) (l : list Q) : Q := fold_left PyNum.max l x.

Definition metrics_keys : list string :=
  ["response_length"; "token_count"; "latency_ms"; "cost_estimate"].

(** One turn of the loop over [metrics_keys]. *)
Definition aggregate_key (responses : list (gmap string pyval))
    (aggregates : gmap string pyval) (key : string) : result (gmap string pyval) :=
  values <- collect (metric_value key)
              (List.filter (has_key "metrics") responses) ;;
  match values with
  | [] => Ok aggregates
  | _ :: _ =>
      nums <- collect as_number values ;;
      match nums with
      | [] => Ok aggregates
      | x :: rest =>
          Ok (<["max_" +:+ key := PNum (list_max x rest)]>
             (<["min_" +:+ key := PNum (list_min x rest)]>
             (<["avg_" +:+ key :=
                  PNum (PyNum.div (PyNum.sum nums) (PyNum.of_nat (length nums)))]>
              aggregates)))
      end
  end.

Fixpoint aggregate_keys (responses : list (gmap string pyval))
    (aggregates : gmap string pyval) (keys : list string) : result (gmap string pyval) :=
  match keys with
  | [] => Ok aggregates
  | key :: keys' =>
      aggregates' <- aggregate_key responses aggregates key ;;
      aggregate_keys responses aggregates' keys'
  end.

Definition calculate_aggregate_metrics (responses : list (gmap string pyval))
    : result (gmap string pyval) :=
  match responses with
  | [] => Ok ∅
  | _ :: _ =>
      aggregates <- aggregate_keys responses ∅ metrics_keys ;;
      let aggregates :=
        <["total_responses" := PNum (PyNum.of_nat (length responses))]> aggregates in
      let aggregates :=
        <["success_rate" :=
            PNum (PyNum.div (PyNum.of_nat (length responses))
                    (PyNum.of_nat (length responses
                                   + length (List.filter (has_key "error") responses))))]>
          aggregates in
      Ok aggregates
  end.

Record ExperimentRequest : Type := {
  prompt : string;
  model_configs : list ModelConfig;
  num_runs : nat
}.

(** The loops of [run_experiment]: every configuration, [num_runs] times.
    [worlds i k] is what the call for the [i]-th configuration and run
    [k] reads from outside. *)
Definition all_responses (svc : service) (worlds : nat -> nat -> world)
    (req : ExperimentRequest) : list (gmap string pyval) :=
  concat
    (imap (fun i cfg =>
             List.map (fun run_num =>
                         run_entry cfg run_num
                           (generate_response svc (worlds i run_num) (prompt req) cfg))
               (seq 0 (num_runs req)))
       (model_configs req)).

(** [run_experiment]: the responses and the aggregate metrics of the
    [ExperimentResponse]; an exception of the aggregation becomes the
    HTTP error 500. *)
Definition run_experiment (svc : service) (worlds : nat -> nat -> world)
    (req : ExperimentRequest)
    : result (list (gmap string pyval) * gmap string pyval) :=
  let all_responses := all_responses svc worlds req in
  let successful_responses :=
    List.filter (fun r => negb (has_key "error" r)) all_responses in
  aggregate_metrics <- calculate_aggregate_metrics successful_responses ;;
  Ok (all_responses, aggregate_metrics).

End Main.

(** ** llm_service_fixed.py: creating the service *)

Module LLMServiceInit.
Import LLMService.

(** The test [key and key != placeholder] on the value of an environment
    variable. *)
Definition usable_key (key : option string) (placeholder : string) : bool :=
  match key with
  | Some k => PyStr.truthy k && negb (String.eqb k placeholder)
  | None => false
  end.

(** [_initialize_clients], as the clients it leaves behind.  [env] is the
    process environment; [openai_fails] and [anthropic_fails] tell whether
    the constructor of the client raises, in which case the [except]
    branch ends the initialisation there. *)
Definition _initialize_clients (env : gmap string string) (demo_mode : bool)
    (openai_fails anthropic_fails : bool) : bool * bool :=
  if demo_mode then (false, false)
  else
    let openai_wanted :=
      usable_key (env !! "OPENAI_API_KEY") "your_openai_api_key_here" in
    if openai_wanted && openai_fails then (false, false)
    else
      let anthropic_wanted :=
        usable_key (env !! "ANTHROPIC_API_KEY") "your_anthropic_api_key_here" in
      if anthropic_wanted && anthropic_fails then (openai_wanted, false)
      else (openai_wanted, anthropic_wanted).

(** [LLMService.__init__] *)
Definition __init__ (env : gmap string string)
    (openai_fails anthropic_fails : bool) : service :=
  let demo_mode :=
    String.eqb (PyStr.lower (default "false" (env !! "DEMO_MODE"))) "true" in
  let clients := _initialize_clients env demo_mode openai_fails anthropic_fails in
  {| openai_client := fst clients;
     anthropic_client := snd clients;
     demo_mode := demo_mode |}.

End LLMServiceInit.

(** ** models.py: templates and experiment results *)

Module Records.
Import Models.

(** The optional time stamps of a template, which [save_template] does not
    read, are left out. *)
Record PromptTemplate : Type := {
  id : option string;
  name : string;
  description : string;
  template : string;
  category : string;
  variables : list string
}.

(** [timestamp] is the ISO text of the time stamp. *)
Record ExperimentResult : Type := {
  experiment_id : string;
  prompt : string;
  model_configuration : ModelConfig;
  response : string;
  metrics : gmap string pyval;
  timestamp : string;
  run_number : nat
}.

End Records.

(** ** data_service.py

    The database is modelled by its two tables that the code writes, each
    a map from the primary key [id] to the other columns of the row; a
    column that may hold NULL is an [option].  Failures of the storage
    itself (no disk, locked file) are not modelled.  [json.dumps] is a
    parameter, and the identifier drawn by [uuid.uuid4] and the text of
    [datetime.now()] are inputs. *)

Module DataService.
Import Models Records.

Record experiment_row : Type := {
  exp_prompt : string;
  exp_model_provider : string;
  exp_model_name : string;
  exp_model_config : string;
  exp_response : string;
  exp_metrics : string;
  exp_timestamp : string;
  exp_user_rating : option Z;
  exp_notes : option string;
  exp_experiment_group : option string
}.

Record template_row : Type := {
  tpl_name : string;
  tpl_description : string;
  tpl_template : string;
  tpl_category : string;
  tpl_variables : string;
  tpl_created_at : string;
  tpl_updated_at : string
}.

Record database : Type := {
  experiments : gmap string experiment_row;
  templates : gmap string template_row
}.

Section Json.
Variable dumps : gmap string pyval -> string.
Variable dumps_list : list string -> string.

(** [save_experiment]: the row is inserted under a new identifier; an
    identifier that is already a key violates the primary key and the
    exception of the database is raised again. *)
Definition save_experiment (db : database) (experiment_result : ExperimentResult)
    (uuid : string) : result (string * database) :=
  let experiment_id := uuid in
  match experiments db !! experiment_id with
  | Some _ => Raise "UNIQUE constraint failed: experiments.id"
  | None =>
      let row :=
        {| exp_prompt := prompt experiment_result;
           exp_model_provider :=
             provider_value (provider (model_configuration experiment_result));
           exp_model_name := model_name (model_configuration experiment_result);
           exp_model_config :=
             dumps (Main.config_dict (model_configuration experiment_result));
           exp_response := response experiment_result;
           exp_metrics := dumps (metrics experiment_result);
           exp_timestamp := timestamp experiment_result;
           exp_user_rating := None;
           exp_notes := None;
           exp_experiment_group := Some (Records.experiment_id experiment_result) |} in
      Ok (experiment_id,
          {| experiments := <[experiment_id := row]> (experiments db);
             templates := templates db |})
  end.

(** [template.id or str(uuid.uuid4())] *)
Definition template_id_of (template : PromptTemplate) (uuid : string) : string :=
  match id template with
  | Some i => if PyStr.truthy i then i else uuid
  | None => uuid
  end.

(** [save_template]: update the row of that identifier when there is one,
    insert a row otherwise. *)
Definition save_template (db : database) (template : PromptTemplate)
    (uuid now : string) : string * database :=
  let template_id := template_id_of template uuid in
  let row :=
    match templates db !! template_id with
    | Some old =>
        {| tpl_name := name template;
           tpl_description := description template;
           tpl_template := Records.template template;
           tpl_category := category template;
           tpl_variables := dumps_list (variables template);
           tpl_created_at := tpl_created_at old;
           tpl_updated_at := now |}
    | None =>
        {| tpl_name := name template;
           tpl_description := description template;
           tpl_template := Records.template template;
           tpl_category := category template;
           tpl_variables := dumps_list (variables template);
           tpl_created_at := now;
           tpl_updated_at := now |}
    end in
  (template_id,
   {| experiments := experiments db;
      templates := <[template_id := row]> (templates db) |}).

End Json.

(** [cursor.rowcount > 0] after a statement [WHERE id = ?]. *)
Definition row_exists {A : Type} (table : gmap string A) (key : string) : bool :=
  match table !! key with
  | Some _ => true
  | None => false
  end.

Definition delete_template (db : database) (template_id : string)
    : bool * database :=
  (row_exists (templates db) template_id,
   {| experiments := experiments db;
      templates := delete template_id (templates db) |}).

Definition rate_row (rating : Z) (notes : option string) (row : experiment_row)
    : experiment_row :=
  {| exp_prompt := exp_prompt row;
     exp_model_provider := exp_model_provider row;
     exp_model_name := exp_model_name row;
     exp_model_config := exp_model_config row;
     exp_response := exp_response row;
     exp_metrics := exp_metrics row;
     exp_timestamp := exp_timestamp row;
     exp_user_rating := Some rating;
     exp_notes := notes;
     exp_experiment_group := exp_experiment_group row |}.

Definition update_experiment_rating (db : database) (experiment_id : string)
    (rating : Z) (notes : option string) : bool * database :=
  (row_exists (experiments db) experiment_id,
   {| experiments := alter (rate_row rating notes) experiment_id (experiments db);
      templates := templates db |}).

(** [get_experiment_count] *)
Definition get_experiment_count (db : database) : nat :=
  size (experiments db).

End DataService.

(** ** main.py: endpoints over the data service

    An endpoint returns a value or raises an [HTTPException].  Each body
    is a [try] block whose handler catches every exception, the
    [HTTPException]s raised inside the block included, and raises an
    [HTTPException] of status 500 whose detail is the text of the caught
    exception; [str_http] is that text for an [HTTPException]. *)

Module Endpoints.
Import Models Records.

Inductive outcome (A : Type) : Type :=
| Respond (a : A)
| HTTPException (status : Z) (detail : string).

Arguments Respond {A} a.
Arguments HTTPException {A} status detail.

Section Handlers.
Variable str_http : Z -> string -> string.
Variable dumps_list : list string -> string.

(** [except Exception as e: raise HTTPException(status_code=500,
    detail=str(e))] *)
Definition on_exception {A : Type} (body : outcome A) : outcome A :=
  match body with
  | Respond a => Respond a
  | HTTPException status detail => HTTPException 500 (str_http status detail)
  end.

Definition update_experiment_rating (db : DataService.database)
    (experiment_id : string) (rating : Z) (notes : option string)
    : outcome string * DataService.database :=
  if negb ((1 <=? rating)%Z && (rating <=? 5)%Z)
  then (on_exception (HTTPException 400 "Rating must be between 1 and 5"), db)
  else
    let '(success, db') :=
      DataService.update_experiment_rating db experiment_id rating notes in
    if negb success
    then (on_exception (HTTPException 404 "Experiment not found"), db')
    else (on_exception (Respond "Rating updated successfully"), db').

Definition create_template (db : DataService.database) (template : PromptTemplate)
    (uuid now : string) : outcome string * DataService.database :=
  let '(template_id, db') :=
    DataService.save_template dumps_list db template uuid now in
  (on_exception (Respond template_id), db').

Definition delete_template (db : DataService.database) (template_id : string)
    : outcome string * DataService.database :=
  let '(success, db') := DataService.delete_template db template_id in
  if negb success
  then (on_exception (HTTPException 404 "Template not found"), db')
  else (on_exception (Respond "Template deleted successfully"), db').

End Handlers.

End Endpoints.

(** ** main.py: saving results in the background *)

Module Background.
Import Records.

Section Json.
Variable dumps : gmap string pyval -> string.

(** [save_experiment_background]: an exception of the data service is
    logged and dropped. *)
Definition save_experiment_background (db : DataService.database)
    (experiment_result : ExperimentResult) (uuid : string)
    : DataService.database :=
  match DataService.save_experiment dumps db experiment_result uuid with
  | Ok (_, db') => db'
  | Raise _ => db
  end.

(** The background tasks of one request, run one after the other; each
    task is a result with the identifier drawn for it. *)
Definition save_all (db : DataService.database)
    (tasks : list (ExperimentResult * string)) : DataService.database :=
  fold_left (fun db task => save_experiment_background db (fst task) (snd task))
    tasks db.

End Json.

End Background.

(** ** Sample inputs *)

Module Samples.
Import Models LLMService Main.

Definition gpt4 : ModelConfig :=
  {| provider := OPENAI; model_name := "gpt-4"; temperature := 7 # 10;
     max_tokens := Some 100%Z; top_p := Some 1%Q;
     frequency_penalty := Some 0%Q; presence_penalty := Some 0%Q |}.

(** A service with an OpenAI client only, demo mode off. *)
Definition live : service :=
  {| openai_client := true; anthropic_client := false; demo_mode := false |}.

Definition world_with (answer : result provider_reply) : world :=
  {| clock_start := 0; clock_end := 1; provider_answer := answer;
     rand_choice := 0; rand_cost := 1 # 2; rand_sentiment := 1 # 2;
     rand_readability := 1 # 2 |}.

Definition answers : world :=
  world_with (Ok {| reply_text := "Paris is the capital of France.";
                    reply_prompt_tokens := 7; reply_completion_tokens := 6;
                    reply_total_tokens := 13 |}).

Definition out_of_quota : world :=
  world_with (Raise "Error code: 429 - insufficient_quota").

Definition unavailable : world :=
  world_with (Raise "service unavailable").

(** Three runs of one configuration: two answers, then a failure. *)
Definition two_then_failure (i run_num : nat) : world :=
  if (run_num <? 2)%nat then answers else unavailable.

Definition three_runs : ExperimentRequest :=
  {| prompt := "What is the capital of France?";
     model_configs := [gpt4]; num_runs := 3 |}.

(** The entries of two runs that were answered. *)
Definition two_answers : list (gmap string pyval) :=
  [run_entry gpt4 0 (generate_response live answers (prompt three_runs) gpt4);
   run_entry gpt4 1 (generate_response live answers (prompt three_runs) gpt4)].

End Samples.

(** ** Vocabulary of the statements *)

(** [sub] occurs in [s] as a contiguous substring. *)
Definition occurs (sub s : string) : Prop :=
  exists pre post, s = pre +:+ sub +:+ post.

(** The four basic metrics of a response entry can be summed: the entry
    has no key [metrics], or its value is a dictionary in which each of the
    four keys is absent or bound to a number. *)
Definition numeric_metrics (r : gmap string pyval) : bool :=
  match r !! "metrics" with
  | None => true
  | Some (PDict m) =>
      forallb (fun key => match m !! key with
                          | None | Some (PNum _) => true
                          | Some _ => false
                          end) Main.metrics_keys
  | Some _ => false
  end.

Definition is_number (v : pyval) : Prop := exists q, v = PNum q.

(** The value bound to [key] in the aggregate metrics of an experiment. *)
Definition aggregate_of (key : string)
    (r : result (list (gmap string pyval) * gmap string pyval)) : option pyval :=
  match r with
  | Ok (_, aggregates) => aggregates !! key
  | Raise _ => None
  end.

(** The world [w] with another outcome of the provider call. *)
Definition with_answer (w : LLMService.world)
    (answer : result LLMService.provider_reply) : LLMService.world :=
  {| LLMService.clock_start := LLMService.clock_start w;
     LLMService.clock_end := LLMService.clock_end w;
     LLMService.provider_answer := answer;
     LLMService.rand_choice := LLMService.rand_choice w;
     LLMService.rand_cost := LLMService.rand_cost w;
     LLMService.rand_sentiment := LLMService.rand_sentiment w;
     LLMService.rand_readability := LLMService.rand_readability w |}.

(** A text made of white space only (the empty text included). *)
Definition blank (text : string) : Prop :=
  Forall (fun c => PyStr.isspace c = true) (list_ascii_of_string text).



(** * Properties *)

(** ** Strings *)

Section StringFacts.
Import PyStr.

Lemma append_nil (t : string) : "" +:+ t = t.
Proof. reflexivity. Qed.

Lemma append_cons (c : ascii) (s t : string) :
  String c s +:+ t = String c (s +:+ t).
Proof. reflexivity. Qed.

Lemma append_assoc (s t u : string) : (s +:+ t) +:+ u = s +:+ (t +:+ u).
Proof.
  induction s as [|c s IH]; [reflexivity|].
  now rewrite !append_cons, IH.
Qed.

Lemma startswith_spec (p s : string) :
  startswith p s = true <-> exists post, s = p +:+ post.
Proof.
  revert s; induction p as [|a p IH]; intros s; simpl.
  - split; [intros _; now exists s | reflexivity].
  - destruct s as [|b s].
    + split; [discriminate | intros [post H]; discriminate].
    + rewrite andb_true_iff, Ascii.eqb_eq, IH. split.
      * intros [-> [post ->]]. now exists post.
      * intros [post H]. rewrite append_cons in H. injection H as -> ->.
        split; [reflexivity | now exists post].
Qed.

Lemma startswith_app (p s t : string) :
  startswith p s = true -> startswith p (s +:+ t) = true.
Proof.
  rewrite !startswith_spec. intros [post ->].
  exists (post +:+ t). now rewrite append_assoc.
Qed.

Lemma contains_spec (sub s : string) :
  contains sub s = true <-> occurs sub s.
Proof.
  unfold occurs. induction s as [|c s IH]; simpl.
  - rewrite orb_false_r, startswith_spec. split.
    + intros [post H]. now exists "", post.
    + intros [pre [post H]]. destruct pre; [now exists post | discriminate].
  - rewrite orb_true_iff, IH, startswith_spec. split.
    + intros [[post H] | [pre [post H]]].
      * now exists "", post.
      * exists (String c pre), post. now rewrite append_cons, H.
    + intros [pre [post H]]. destruct pre as [|a pre].
      * left. now exists post.
      * right. rewrite append_cons in H. injection H as _ H. now exists pre, post.
Qed.

Lemma lower_char_idem (c : ascii) : lower_char (lower_char c) = lower_char c.
Proof. destruct c as [[] [] [] [] [] [] [] []]; reflexivity. Qed.

Lemma lower_idem (s : string) : lower (lower s) = lower s.
Proof.
  induction s as [|c s IH]; simpl; [reflexivity|].
  now rewrite lower_char_idem, IH.
Qed.

End StringFacts.

(** ** Error classification and dispatch *)

Section Dispatch.
Import PyStr Models LLMService.

Lemma any_keyword_spec (keywords : list string) (msg : string) :
  any_keyword keywords msg = true <->
  exists k, In k keywords /\ occurs k msg.
Proof.
  unfold any_keyword. rewrite existsb_exists.
  split; intros [k [Hin H]]; exists k; split; auto; now apply contains_spec.
Qed.

Lemma any_keyword_none (keywords : list string) (msg : string) :
  any_keyword keywords msg = false <->
  forall k, In k keywords -> ~ occurs k msg.
Proof.
  rewrite <- not_true_iff_false, any_keyword_spec. split.
  - intros H k Hin Hocc. apply H. now exists k.
  - intros H [k [Hin Hocc]]. now apply (H k).
Qed.

Lemma quota_keyword_classified (e : string) :
  (exists k, In k quota_keywords /\ occurs k (lower e)) -> classify e = Quota.
Proof.
  intros H. apply any_keyword_spec in H. unfold classify. now rewrite H.
Qed.

(** C4.  The classification of an error is a total function of its
    message: Quota exactly when a quota keyword occurs in the lowered
    message, Auth exactly when no quota keyword but an auth keyword occurs
    in it, Other exactly when no keyword of either set occurs; messages
    that agree up to case get the same class; and the three messages of
    the specification are classified Quota, Auth and Other. *)
Theorem classify_by_keywords (e : string) :
  (classify e = Quota <->
     exists k, In k quota_keywords /\ occurs k (lower e)) /\
  (classify e = Auth <->
     (forall k, In k quota_keywords -> ~ occurs k (lower e)) /\
     exists k, In k auth_keywords /\ occurs k (lower e)) /\
  (classify e = Other <->
     forall k, In k (quota_keywords ++ auth_keywords) -> ~ occurs k (lower e)) /\
  (forall e', lower e' = lower e -> classify e' = classify e) /\
  quota_keywords = ["quota"; "rate limit"; "429"; "insufficient_quota"; "exceeded"] /\
  auth_keywords = ["authentication"; "api key"; "unauthorized"; "401"] /\
  classify "Error: 429 Too Many Requests" = Quota /\
  classify "401 Unauthorized: bad api key" = Auth /\
  classify "connection reset" = Other /\
  classify "401 Unauthorized: quota exceeded" = Quota.
Proof.
  assert (Hq := any_keyword_spec quota_keywords (lower e)).
  assert (Ha := any_keyword_spec auth_keywords (lower e)).
  assert (Hqn := any_keyword_none quota_keywords (lower e)).
  assert (Han := any_keyword_none auth_keywords (lower e)).
  unfold classify.
  destruct (any_keyword quota_keywords (lower e)) eqn:Eq;
    [| destruct (any_keyword auth_keywords (lower e)) eqn:Ea].
  - repeat split; try discriminate; try reflexivity.
    + intros _. now apply Hq.
    + intros [Hno _]. destruct (proj1 Hq eq_refl) as [k [Hin Hocc]].
      now destruct (Hno k Hin).
    + intros Hno. destruct (proj1 Hq eq_refl) as [k [Hin Hocc]].
      destruct (Hno k); [apply in_or_app; now left | exact Hocc].
    + intros e' He. now rewrite He, Eq.
  - repeat split; try discriminate; try reflexivity.
    + intros H. apply Hq in H. discriminate.
    + now apply Hqn.
    + now apply Ha.
    + intros Hno. destruct (proj1 Ha eq_refl) as [k [Hin Hocc]].
      destruct (Hno k); [apply in_or_app; now right | exact Hocc].
    + intros e' He. now rewrite He, Eq, Ea.
  - repeat split; try discriminate; try reflexivity.
    + intros H. apply Hq in H. discriminate.
    + intros [_ H]. apply Ha in H. discriminate.
    + intros _ k Hin. apply in_app_or in Hin as [Hin | Hin].
      * now apply Hqn.
      * now apply Han.
    + intros e' He. now rewrite He, Eq, Ea.
Qed.

Lemma demo_is_fallback (self : service) (w : world) (prompt : string)
    (cfg : ModelConfig) (start_time : Q) :
  demo_mode self = false ->
  is_fallback (_generate_demo_response self w prompt cfg start_time) = true.
Proof.
  intros Hlive. unfold is_fallback, _generate_demo_response. rewrite Hlive.
  cbn [negb response].
  match goal with |- context [if ?c then _ +:+ _ else _] => destruct c end.
  - apply startswith_app, startswith_spec. eexists; reflexivity.
  - apply startswith_spec. eexists; reflexivity.
Qed.

Lemma keyword_lowered (k pre post : string) :
  occurs k (pre +:+ k +:+ post).
Proof. now exists pre, post. Qed.

(** C3.  With demo mode off, let the provider call fail with message [e].
    If [e] is classified Quota or Auth, [generate_response] returns a
    result (it does not raise): the demo response, whose text opens with
    the fallback banner and whose [model_info] has [demo_mode] set.  If
    [e] is classified Other, the exception is raised again with the same
    message.  In particular a message in which "insufficient_quota"
    occurs gives the fallback result, and a client that was not
    initialised (OpenAI or Anthropic) makes the call raise without
    falling back. *)
Theorem dispatch_failure_policy (self : service) (w : world) (prompt : string)
    (cfg : ModelConfig) (e : string)
    (Hlive : demo_mode self = false)
    (Hfail : call_provider self w cfg = Raise e) :
  let fallback := _generate_demo_response self w prompt cfg (clock_start w) in
  (classify e <> Other ->
     generate_response self w prompt cfg = Ok fallback /\
     is_fallback fallback = true /\
     (info_demo_mode <$> model_info fallback) = Some true) /\
  (classify e = Other -> generate_response self w prompt cfg = Raise e) /\
  (occurs "insufficient_quota" (lower e) ->
     generate_response self w prompt cfg = Ok fallback /\
     is_fallback fallback = true) /\
  (provider cfg = OPENAI -> openai_client self = false ->
     generate_response self w prompt cfg = Raise "OpenAI client not initialized") /\
  (provider cfg = ANTHROPIC -> anthropic_client self = false ->
     generate_response self w prompt cfg = Raise "Anthropic client not initialized").
Proof.
  intros fallback.
  assert (Hmark : is_fallback fallback = true) by now apply demo_is_fallback.
  assert (Hgen : generate_response self w prompt cfg =
                 match classify e with
                 | Other => Raise e
                 | _ => Ok fallback
                 end).
  { unfold generate_response, classify. rewrite Hlive, Hfail.
    destruct (any_keyword quota_keywords (lower e)); [reflexivity|].
    destruct (any_keyword auth_keywords (lower e)); reflexivity. }
  assert (Hquota : occurs "insufficient_quota" (lower e) -> classify e = Quota).
  { intros Hocc. apply (quota_keyword_classified e).
    exists "insufficient_quota". split; [|exact Hocc]. simpl; tauto. }
  repeat split.
  - rewrite Hgen. destruct (classify e); congruence.
  - exact Hmark.
  - rewrite Hgen. now intros ->.
  - rewrite Hgen, (Hquota H). reflexivity.
  - exact Hmark.
  - intros Hp Hc. rewrite Hgen. unfold call_provider in Hfail.
    rewrite Hp in Hfail. unfold _generate_openai_response in Hfail.
    rewrite Hc in Hfail. injection Hfail as <-. reflexivity.
  - intros Hp Hc. rewrite Hgen. unfold call_provider in Hfail.
    rewrite Hp in Hfail. unfold _generate_anthropic_response in Hfail.
    rewrite Hc in Hfail. injection Hfail as <-. reflexivity.
Qed.

Lemma dispatch_failure_policy_witness :
  demo_mode Samples.live = false /\
  call_provider Samples.live Samples.out_of_quota Samples.gpt4
    = Raise "Error code: 429 - insufficient_quota" /\
  generate_response Samples.live Samples.out_of_quota "What?" Samples.gpt4
    = Ok (_generate_demo_response Samples.live Samples.out_of_quota "What?"
            Samples.gpt4 0).
Proof.
  split; [reflexivity|]. split; [reflexivity|].
  destruct (dispatch_failure_policy Samples.live Samples.out_of_quota "What?"
              Samples.gpt4 "Error code: 429 - insufficient_quota"
              eq_refl eq_refl) as [H _].
  apply H. vm_compute. discriminate.
Defined.

End Dispatch.

(** ** Rational arithmetic of the embedding *)

#[local] Open Scope Q_scope.

Section Numbers.

Lemma add_correct (a b : Q) : PyNum.add a b == a + b.
Proof. apply Qred_correct. Qed.

Lemma sub_correct (a b : Q) : PyNum.sub a b == a - b.
Proof. apply Qred_correct. Qed.

Lemma mul_correct (a b : Q) : PyNum.mul a b == a * b.
Proof. apply Qred_correct. Qed.

Lemma div_correct (a b : Q) : PyNum.div a b == a / b.
Proof. apply Qred_correct. Qed.

(** A quotient that is equal to a reduced fraction is that fraction. *)
Lemma div_exact (a b r : Q) : a / b == r -> Qred r = r -> PyNum.div a b = r.
Proof.
  intros H Hr. unfold PyNum.div. rewrite <- Hr. now apply Qred_complete.
Qed.

Lemma max_correct (a b : Q) : PyNum.max a b == Qmax a b.
Proof.
  unfold PyNum.max. destruct (Qle_bool b a) eqn:E.
  - apply Qle_bool_iff in E. symmetry. now apply Q.max_l.
  - symmetry. apply Q.max_r. apply Qnot_lt_le. intros H.
    apply Qlt_le_weak, Qle_bool_iff in H. congruence.
Qed.

Lemma min_correct (a b : Q) : PyNum.min a b == Qmin a b.
Proof.
  unfold PyNum.min. destruct (Qle_bool a b) eqn:E.
  - apply Qle_bool_iff in E. symmetry. now apply Q.min_l.
  - symmetry. apply Q.min_r. apply Qnot_lt_le. intros H.
    apply Qlt_le_weak, Qle_bool_iff in H. congruence.
Qed.

Lemma of_nat_nonneg (n : nat) : 0 <= PyNum.of_nat n.
Proof. unfold PyNum.of_nat, Qle; simpl. lia. Qed.

Lemma of_nat_pos (n : nat) : (0 < n)%nat -> 0 < PyNum.of_nat n.
Proof. intros H. unfold PyNum.of_nat, Qlt; simpl. lia. Qed.

End Numbers.

(** ** Sentiment *)

Section Sentiment.
Import PyStr Metrics.

Lemma inb_spec (word : string) (words : list string) :
  inb word words = true <-> word ∈ words.
Proof.
  unfold inb. rewrite existsb_exists, list_elem_of_In. split.
  - intros [x [Hin Heq]]. apply String.eqb_eq in Heq. now subst.
  - intros Hin. exists word. split; [exact Hin | apply String.eqb_refl].
Qed.

Lemma count_if_filter (lexicon words : list string) :
  count_if (fun word => inb word lexicon) words
  = length (filter (.∈ lexicon) words).
Proof.
  unfold count_if. induction words as [|w words IH]; [reflexivity|].
  rewrite filter_cons. simpl.
  destruct (inb w lexicon) eqn:E.
  - apply inb_spec in E. rewrite decide_True by exact E. simpl. now rewrite IH.
  - rewrite decide_False; [exact IH|]. intros H. apply inb_spec in H. congruence.
Qed.

Lemma filter_none (lexicon words : list string) :
  (forall w, w ∈ words -> w ∉ lexicon) ->
  length (filter (.∈ lexicon) words) = 0%nat.
Proof.
  induction words as [|w words IH]; intros H; [reflexivity|].
  rewrite filter_cons, decide_False.
  - apply IH. intros v Hv. apply H. now right.
  - apply H. now left.
Qed.

(** C7.  With [pos] and [neg] the numbers of lowercase whitespace tokens
    of the text that belong to the positive and to the negative lexicon
    (six words each), the sentiment score is [(pos - neg) / (pos + neg)]
    when [pos + neg] is not zero and [0] when it is; it is [0] when no
    token is a lexicon word; and it always lies between [-1] and [1]. *)
Theorem sentiment_score_range (text : string) :
  let words := split (lower text) in
  let pos := Z.of_nat (length (filter (.∈ positive_words) words)) in
  let neg := Z.of_nat (length (filter (.∈ negative_words) words)) in
  ((pos + neg)%Z <> 0%Z ->
     _calculate_sentiment text == inject_Z (pos - neg) / inject_Z (pos + neg)) /\
  ((pos + neg)%Z = 0%Z -> _calculate_sentiment text = 0) /\
  ((forall w, w ∈ words -> (w ∉ positive_words) /\ (w ∉ negative_words)) ->
     _calculate_sentiment text = 0) /\
  -1 <= _calculate_sentiment text <= 1 /\
  length positive_words = 6%nat /\ length negative_words = 6%nat.
Proof.
  intros words pos neg.
  assert (Hdef : _calculate_sentiment text =
                 if (pos + neg =? 0)%Z then 0
                 else PyNum.div (inject_Z (pos - neg)) (inject_Z (pos + neg))).
  { unfold _calculate_sentiment. fold words. now rewrite !count_if_filter. }
  assert (Hzero : (pos + neg)%Z = 0%Z -> _calculate_sentiment text = 0).
  { intros H. rewrite Hdef, H. reflexivity. }
  split; [|split; [exact Hzero|split; [|split]]].
  - intros H. rewrite Hdef. apply Z.eqb_neq in H. rewrite H. apply div_correct.
  - intros H. apply Hzero. subst pos neg.
    rewrite !filter_none; [reflexivity | |]; intros w Hw; now apply H.
  - rewrite Hdef. destruct (pos + neg =? 0)%Z eqn:E.
    + split; unfold Qle; simpl; lia.
    + apply Z.eqb_neq in E. rewrite div_correct.
      assert (Hpos : (0 <= pos)%Z) by (subst pos; lia).
      assert (Hneg : (0 <= neg)%Z) by (subst neg; lia).
      assert (Hden : 0 < inject_Z (pos + neg)).
      { unfold Qlt; simpl. lia. }
      split.
      * apply Qle_shift_div_l; [exact Hden|].
        unfold Qle; simpl. lia.
      * apply Qle_shift_div_r; [exact Hden|].
        unfold Qle; simpl. lia.
  - split; reflexivity.
Qed.

(** C10.  Only whole whitespace tokens are compared with the lexicons:
    the text "good." has the single token "good.", which is not a lexicon
    word, so its score is 0, whereas the text "good" scores 1. *)
Theorem sentiment_whole_tokens :
  split (lower "good.") = ["good."] /\
  inb "good." positive_words = false /\
  inb "good." negative_words = false /\
  _calculate_sentiment "good." = 0 /\
  _calculate_sentiment "good" = 1.
Proof. repeat split; reflexivity. Qed.

End Sentiment.

(** ** Cost estimate *)

Section Cost.
Import Models Metrics.

(** The rate of a model is one of the four rates of the table or the
    default rate. *)
Lemma rate_cases (name : string) :
  let rate := default (1 # 1000) (cost_per_1k_tokens !! name) in
  (name = "gpt-4" /\ rate = 3 # 100) \/
  (name = "gpt-3.5-turbo" /\ rate = 2 # 1000) \/
  (name = "claude-3-opus" /\ rate = 15 # 1000) \/
  (name = "claude-3-sonnet" /\ rate = 3 # 1000) \/
  ((name ∉ ["gpt-4"; "gpt-3.5-turbo"; "claude-3-opus"; "claude-3-sonnet"])
   /\ rate = 1 # 1000).
Proof.
  intros rate. subst rate.
  destruct (decide (name = "gpt-4")) as [-> | H1]; [left; split; reflexivity|].
  destruct (decide (name = "gpt-3.5-turbo")) as [-> | H2];
    [right; left; split; reflexivity|].
  destruct (decide (name = "claude-3-opus")) as [-> | H3];
    [right; right; left; split; reflexivity|].
  destruct (decide (name = "claude-3-sonnet")) as [-> | H4];
    [right; right; right; left; split; reflexivity|].
  right; right; right; right. split.
  - rewrite !elem_of_cons, elem_of_nil. tauto.
  - unfold cost_per_1k_tokens.
    rewrite !lookup_insert_ne by congruence. now rewrite lookup_empty.
Qed.

Lemma rate_nonneg (name : string) :
  0 <= default (1 # 1000) (cost_per_1k_tokens !! name).
Proof.
  destruct (rate_cases name) as [[_ ->] | [[_ ->] | [[_ ->] | [[_ ->] | [_ ->]]]]];
    unfold Qle; simpl; lia.
Qed.

(** C9.  For a fixed model configuration the cost estimate is
    [(token_count / 1000) * rate], the rate being the entry of the static
    table for the exact model name and 0.001 for a name that is not in
    the table, and a larger token count never costs less. *)
Theorem cost_estimate_monotone (cfg : ModelConfig) (t1 t2 : Z)
    (Hle : (t1 <= t2)%Z) :
  let rate := default (1 # 1000) (cost_per_1k_tokens !! model_name cfg) in
  _estimate_cost t1 cfg == (inject_Z t1 / 1000) * rate /\
  _estimate_cost t2 cfg == (inject_Z t2 / 1000) * rate /\
  _estimate_cost t1 cfg <= _estimate_cost t2 cfg /\
  ((model_name cfg ∉ ["gpt-4"; "gpt-3.5-turbo"; "claude-3-opus"; "claude-3-sonnet"])
   -> rate = 1 # 1000) /\
  cost_per_1k_tokens !! "gpt-4" = Some (3 # 100) /\
  cost_per_1k_tokens !! "gpt-3.5-turbo" = Some (2 # 1000) /\
  cost_per_1k_tokens !! "claude-3-opus" = Some (15 # 1000) /\
  cost_per_1k_tokens !! "claude-3-sonnet" = Some (3 # 1000).
Proof.
  intros rate.
  assert (Hcost : forall t, _estimate_cost t cfg == (inject_Z t / 1000) * rate).
  { intros t. unfold _estimate_cost. fold rate.
    now rewrite mul_correct, div_correct. }
  split; [apply Hcost|]. split; [apply Hcost|]. split; [|split].
  - rewrite !Hcost. apply Qmult_le_compat_r; [|apply rate_nonneg].
    apply Qmult_le_compat_r; [|unfold Qle; simpl; lia].
    rewrite <- Zle_Qle. exact Hle.
  - intros Hnot.
    destruct (rate_cases (model_name cfg))
      as [[E _] | [[E _] | [[E _] | [[E _] | [_ E]]]]];
      try exact E; exfalso; apply Hnot; rewrite E;
      rewrite !elem_of_cons; tauto.
  - repeat split; reflexivity.
Qed.

Lemma cost_estimate_monotone_witness :
  (1000 <= 2000)%Z /\
  _estimate_cost 1000 Samples.gpt4 <= _estimate_cost 2000 Samples.gpt4.
Proof.
  split; [lia|].
  apply (cost_estimate_monotone Samples.gpt4 1000 2000). lia.
Defined.

End Cost.

(** ** Readability *)

Section Readability.
Import PyStr Metrics.

Lemma re_split_go_nonempty (acc : list ascii) (in_run : bool) (s : string) :
  (1 <= length (re_split_go acc in_run s))%nat.
Proof.
  revert acc in_run; induction s as [|c s IH]; intros acc in_run; simpl.
  - lia.
  - destruct (is_terminator c); [destruct in_run|]; simpl; auto with arith.
Qed.

(** [re.split] always returns at least one piece, so the sentence count
    of [_calculate_readability] is never zero. *)
Lemma sentences_positive (text : string) :
  (1 <= length (re_split_terminators text))%nat.
Proof. apply re_split_go_nonempty. Qed.

Lemma clamp_bounds (score : Q) :
  0 <= PyNum.div (PyNum.max 0 (PyNum.min 100 score)) 100 <= 1.
Proof.
  rewrite div_correct, max_correct. split.
  - apply Qle_shift_div_l; [reflexivity|]. rewrite Qmult_0_l. apply Q.le_max_l.
  - apply Qle_shift_div_r; [reflexivity|]. rewrite Qmult_1_l.
    apply Q.max_lub; [discriminate|].
    rewrite min_correct. apply Q.le_min_l.
Qed.

(** C8.  With [sentences] the number of pieces left by the runs of [.],
    [!] and [?], [words] the number of whitespace tokens and [syllables]
    the sum of their syllable counts, the readability score is 0 when
    [sentences] or [words] is 0, and otherwise the Flesch value
    [206.835 - 1.015 * (words / sentences) - 84.6 * (syllables / words)]
    clamped to the interval from 0 to 100 and divided by 100; in every
    case it lies between 0 and 1. *)
Theorem readability_score_range (text : string) :
  let sentences := length (re_split_terminators text) in
  let words := length (split text) in
  let syllables := fold_left Z.add (List.map _count_syllables (split text)) 0%Z in
  let flesch :=
    (206835 # 1000)
    - (1015 # 1000) * (PyNum.of_nat words / PyNum.of_nat sentences)
    - (846 # 10) * (inject_Z syllables / PyNum.of_nat words) in
  0 <= _calculate_readability text <= 1 /\
  (sentences = 0%nat \/ words = 0%nat -> _calculate_readability text = 0) /\
  (sentences <> 0%nat -> words <> 0%nat ->
     _calculate_readability text == Qmax 0 (Qmin 100 flesch) / 100).
Proof.
  intros sentences words syllables flesch.
  unfold _calculate_readability. fold sentences words syllables.
  destruct ((sentences =? 0)%nat || (words =? 0)%nat) eqn:E.
  - split; [split; discriminate|]. split; [reflexivity|].
    intros Hs Hw. apply orb_true_iff in E as [E | E];
      apply Nat.eqb_eq in E; contradiction.
  - apply orb_false_iff in E as [Es Ew].
    apply Nat.eqb_neq in Es, Ew.
    split; [apply clamp_bounds|]. split.
    + intros [H | H]; contradiction.
    + intros _ _. rewrite div_correct, max_correct, min_correct.
      rewrite !sub_correct, !mul_correct, !div_correct. reflexivity.
Qed.

End Readability.

(** ** Coherence *)

Section Coherence.
Import PyStr Metrics.

#[local] Instance add_proper : Proper (Qeq ==> Qeq ==> Qeq) PyNum.add.
Proof. intros a a' Ha b b' Hb. now rewrite !add_correct, Ha, Hb. Qed.

#[local] Instance sub_proper : Proper (Qeq ==> Qeq ==> Qeq) PyNum.sub.
Proof. intros a a' Ha b b' Hb. now rewrite !sub_correct, Ha, Hb. Qed.

#[local] Instance mul_proper : Proper (Qeq ==> Qeq ==> Qeq) PyNum.mul.
Proof. intros a a' Ha b b' Hb. now rewrite !mul_correct, Ha, Hb. Qed.

#[local] Instance div_proper : Proper (Qeq ==> Qeq ==> Qeq) PyNum.div.
Proof. intros a a' Ha b b' Hb. now rewrite !div_correct, Ha, Hb. Qed.

Lemma split_on_go_nonempty (sep : ascii) (acc : list ascii) (s : string) :
  (1 <= length (split_on_go sep acc s))%nat.
Proof.
  revert acc; induction s as [|c s IH]; intros acc; simpl; [lia|].
  destruct (Ascii.eqb c sep); simpl; auto with arith.
Qed.

(** [split] on a character gives a single piece exactly when the character
    does not occur in the text. *)
Lemma split_on_single (sep : ascii) (acc : list ascii) (s : string) :
  (length (split_on_go sep acc s) <? 2)%nat
  = negb (contains (String sep EmptyString) s).
Proof.
  revert acc; induction s as [|c s IH]; intros acc; simpl; [reflexivity|].
  rewrite (Ascii.eqb_sym sep c). destruct (Ascii.eqb c sep); simpl.
  - pose proof (split_on_go_nonempty sep [] s).
    apply Nat.ltb_ge. lia.
  - apply IH.
Qed.

Lemma split_on_period (text : string) :
  (length (split_on "." text) <? 2)%nat = true <-> ~ occurs "." text.
Proof.
  unfold split_on. rewrite split_on_single, <- contains_spec.
  destruct (contains "." text); simpl; split; congruence.
Qed.

Lemma fold_add_nonneg (l : list Q) (a : Q) :
  0 <= a -> Forall (Qle 0) l -> 0 <= fold_left PyNum.add l a.
Proof.
  revert a; induction l as [|x l IH]; intros a Ha Hl; simpl; [exact Ha|].
  inversion Hl; subst. apply IH; [|assumption].
  rewrite add_correct. lra.
Qed.

Lemma sum_nonneg (l : list Q) : Forall (Qle 0) l -> 0 <= PyNum.sum l.
Proof. apply fold_add_nonneg. discriminate. Qed.

Lemma squares_nonneg (avg : Q) (l : list Q) :
  Forall (Qle 0)
    (List.map (fun x => PyNum.mul (PyNum.sub x avg) (PyNum.sub x avg)) l).
Proof.
  apply Forall_forall. intros y Hy. apply list_elem_of_In, in_map_iff in Hy.
  destruct Hy as [x [<- _]]. rewrite mul_correct. nra.
Qed.

(** The last line of [_calculate_coherence]: the score of a variance that
    is not negative lies in (0, 1]. *)
Lemma coherence_formula_bounds (variance avg : Q) :
  0 <= variance ->
  let c := PyNum.div 1 (PyNum.add 1 (PyNum.div variance (PyNum.max avg 1))) in
  0 < c /\ c <= 1.
Proof.
  intros Hv c. subst c.
  assert (Hm : 1 <= PyNum.max avg 1).
  { rewrite max_correct. apply Q.le_max_r. }
  assert (Hq : 0 <= PyNum.div variance (PyNum.max avg 1)).
  { rewrite div_correct. apply Qle_shift_div_l; lra. }
  rewrite div_correct, add_correct. split.
  - apply Qlt_shift_div_l; lra.
  - apply Qle_shift_div_r; lra.
Qed.

Lemma coherence_formula_zero_variance (variance avg : Q) :
  variance == 0 ->
  PyNum.div 1 (PyNum.add 1 (PyNum.div variance (PyNum.max avg 1))) = 1.
Proof.
  intros Hv. apply div_exact; [|reflexivity].
  rewrite add_correct, div_correct, Hv. unfold Qdiv. rewrite Qmult_0_l.
  reflexivity.
Qed.

(** C5, as amended.  The coherence score lies between 0 and 1.  It is 1
    when no period occurs in the text and when exactly one of the pieces
    between the periods is not blank; it is 0 when a period occurs and
    every piece is blank; whenever some piece is not blank it is
    positive. *)
Theorem coherence_score_range (text : string) :
  let segments :=
    List.filter (fun sentence => truthy (strip sentence)) (split_on "." text) in
  0 <= _calculate_coherence text <= 1 /\
  (~ occurs "." text -> _calculate_coherence text = 1) /\
  (length segments = 1%nat -> _calculate_coherence text = 1) /\
  (occurs "." text -> segments = [] -> _calculate_coherence text = 0) /\
  (segments <> [] -> 0 < _calculate_coherence text).
Proof.
  intros segments. unfold _calculate_coherence. cbv zeta. fold segments.
  pose proof (split_on_period text) as Hperiod.
  destruct (length (split_on "." text) <? 2)%nat.
  - repeat split; try reflexivity; try discriminate.
    intros Hocc. now destruct (proj1 Hperiod eq_refl).
  - assert (Hocc : ~ ~ occurs "." text).
    { intros H. apply Hperiod in H. discriminate. }
    remember (List.map (fun sentence => PyNum.of_nat (length (split sentence)))
                segments) as lengths eqn:Hl.
    destruct lengths as [|x l].
    + assert (Hseg : segments = []) by (destruct segments; [reflexivity | discriminate]).
      rewrite Hseg. repeat split; try reflexivity; try discriminate.
      * intros H. now destruct Hocc.
      * intros H. now destruct H.
    + set (avg := PyNum.div (PyNum.sum (x :: l)) (PyNum.of_nat (length (x :: l)))).
      match goal with
      | |- context [PyNum.div ?v (PyNum.max avg 1)] => set (variance := v)
      end.
      assert (Hvar : 0 <= variance).
      { subst variance. rewrite div_correct. apply Qle_shift_div_l.
        - apply of_nat_pos. simpl. lia.
        - rewrite Qmult_0_l. apply sum_nonneg, squares_nonneg. }
      destruct (coherence_formula_bounds variance avg Hvar) as [Hlo Hhi].
      repeat split; try exact Hhi; try (apply Qlt_le_weak; exact Hlo).
      * intros H. now destruct Hocc.
      * intros Hone. destruct segments as [|seg [|seg' rest]]; try discriminate.
        injection Hl as -> ->.
        apply coherence_formula_zero_variance.
        subst variance avg. unfold PyNum.sum. cbn [fold_left List.map length].
        change (PyNum.of_nat 1) with 1.
        repeat (rewrite div_correct || rewrite add_correct
                || rewrite mul_correct || rewrite sub_correct).
        field.
      * intros _ Hseg. rewrite Hseg in Hl. discriminate.
      * intros _. exact Hlo.
Qed.

(** C5 as stated fails on the text made of a single period: the text has
    one period and no non-empty piece, yet its score is 0, which is neither
    1 nor inside (0, 1].  A text with one period in the middle, such as
    "a b c. d", scores 2/3. *)
Lemma coherence_claim_fails :
  occurs "." "." /\
  (length (List.filter (fun piece => negb (String.eqb piece ""))
             (split_on "." ".")) < 2)%nat /\
  _calculate_coherence "." = 0 /\
  ~ (0 < _calculate_coherence "." /\ _calculate_coherence "." <= 1) /\
  _calculate_coherence "." <> 1 /\
  _calculate_coherence "a b c. d" = 2 # 3.
Proof.
  split; [now exists "", ""|].
  split; [simpl; lia|].
  split; [reflexivity|].
  split; [intros [H _]; vm_compute in H; discriminate|].
  split; [vm_compute; discriminate | reflexivity].
Qed.

End Coherence.

(** ** Metrics of the fallback response *)

Section Fallback.
Import PyStr Models Metrics LLMService.

Lemma uniform_bounds (a b u : Q) :
  a <= b -> 0 <= u -> u < 1 -> a <= uniform a b u <= b.
Proof.
  intros Hab Hu0 Hu1. unfold uniform.
  rewrite add_correct, mul_correct, sub_correct. split; nra.
Qed.

(** The token estimate of the fallback: thirteen tenths of the word count,
    rounded down. *)
Lemma token_estimate (n : nat) :
  PyNum.int (PyNum.mul (PyNum.of_nat n) (13 # 10)) = (13 * Z.of_nat n / 10)%Z.
Proof.
  unfold PyNum.int.
  assert (H : PyNum.mul (PyNum.of_nat n) (13 # 10) == (13 * Z.of_nat n # 10)).
  { rewrite mul_correct. unfold PyNum.of_nat, Qeq; simpl. lia. }
  assert (Hpos : Qle_bool 0 (PyNum.mul (PyNum.of_nat n) (13 # 10)) = true).
  { apply Qle_bool_iff. rewrite H. unfold Qle; simpl. lia. }
  rewrite Hpos, (Qfloor_comp _ _ H). reflexivity.
Qed.

(** C6 as stated fails at a concrete fallback: the sentiment and the
    readability of the fallback metrics are not the values the metrics
    computation of the success path gives for the same text, and the
    coherence score, which that computation always sets, is absent. *)
Lemma fallback_metrics_differ :
  sentiment_score
    (metrics (_generate_demo_response Samples.live Samples.out_of_quota "What?"
                Samples.gpt4 0)) = Some (11 # 20) /\
  sentiment_score
    (_calculate_metrics
       (response (_generate_demo_response Samples.live Samples.out_of_quota "What?"
                    Samples.gpt4 0)) 1000 Samples.gpt4) = Some 0 /\
  readability_score
    (metrics (_generate_demo_response Samples.live Samples.out_of_quota "What?"
                Samples.gpt4 0)) = Some (3 # 4) /\
  readability_score
    (_calculate_metrics
       (response (_generate_demo_response Samples.live Samples.out_of_quota "What?"
                    Samples.gpt4 0)) 1000 Samples.gpt4) = Some (152047 # 355000) /\
  coherence_score
    (metrics (_generate_demo_response Samples.live Samples.out_of_quota "What?"
                Samples.gpt4 0)) = None /\
  coherence_score
    (_calculate_metrics
       (response (_generate_demo_response Samples.live Samples.out_of_quota "What?"
                    Samples.gpt4 0)) 1000 Samples.gpt4) = Some (438 # 1691) /\
  metrics (_generate_demo_response Samples.live Samples.out_of_quota "What?"
             Samples.gpt4 0)
  <> _calculate_metrics
       (response (_generate_demo_response Samples.live Samples.out_of_quota "What?"
                    Samples.gpt4 0)) 1000 Samples.gpt4.
Proof.
  repeat split; try (vm_compute; reflexivity).
  intros H. apply (f_equal coherence_score) in H. vm_compute in H. discriminate.
Qed.

(** C6, as amended.  The fallback generator does not invoke the metrics
    computation of the success path.  Of its metrics, the response length
    is the length of the fallback text, as on the success path, and the
    latency is the elapsed time in milliseconds; the token count is
    thirteen tenths of the word count rounded down; cost, sentiment and
    readability are random draws from [0.0001, 0.001], [0.3, 0.8] and
    [0.6, 0.9]; and the coherence score is absent, whereas the success path
    always sets it. *)
Theorem fallback_metrics_are_mock (self : service) (w : world) (prompt : string)
    (cfg : ModelConfig) (start_time : Q)
    (Hcost : 0 <= rand_cost w /\ rand_cost w < 1)
    (Hsent : 0 <= rand_sentiment w /\ rand_sentiment w < 1)
    (Hread : 0 <= rand_readability w /\ rand_readability w < 1) :
  let r := _generate_demo_response self w prompt cfg start_time in
  let m := metrics r in
  let success := _calculate_metrics (response r) (latency_ms m) cfg in
  response_length m = len (response r) /\
  response_length m = response_length success /\
  latency_ms m = PyNum.mul (PyNum.sub (clock_end w) start_time) 1000 /\
  token_count m = (13 * Z.of_nat (length (split (response r))) / 10)%Z /\
  token_count success = Z.of_nat (length (split (response r))) /\
  cost_estimate m = uniform (1 # 10000) (1 # 1000) (rand_cost w) /\
  (1 # 10000) <= cost_estimate m <= (1 # 1000) /\
  cost_estimate success = _estimate_cost (token_count success) cfg /\
  (exists s, sentiment_score m = Some s /\ (3 # 10) <= s <= (8 # 10)) /\
  (exists s, readability_score m = Some s /\ (6 # 10) <= s <= (9 # 10)) /\
  sentiment_score success = Some (_calculate_sentiment (response r)) /\
  readability_score success = Some (_calculate_readability (response r)) /\
  coherence_score m = None /\
  coherence_score success = Some (_calculate_coherence (response r)).
Proof.
  intros r m success.
  destruct Hcost as [Hc0 Hc1], Hsent as [Hs0 Hs1], Hread as [Hr0 Hr1].
  split; [reflexivity|]. split; [reflexivity|]. split; [reflexivity|].
  split; [apply token_estimate|]. split; [reflexivity|].
  split; [reflexivity|].
  split; [apply uniform_bounds; [discriminate | assumption | assumption]|].
  split; [reflexivity|].
  split.
  { eexists; split; [reflexivity|].
    apply uniform_bounds; [discriminate | assumption | assumption]. }
  split.
  { eexists; split; [reflexivity|].
    apply uniform_bounds; [discriminate | assumption | assumption]. }
  repeat split; reflexivity.
Qed.

Lemma fallback_metrics_are_mock_witness :
  (0 <= rand_cost Samples.out_of_quota /\ rand_cost Samples.out_of_quota < 1) /\
  (0 <= rand_sentiment Samples.out_of_quota
   /\ rand_sentiment Samples.out_of_quota < 1) /\
  (0 <= rand_readability Samples.out_of_quota
   /\ rand_readability Samples.out_of_quota < 1) /\
  coherence_score
    (metrics (_generate_demo_response Samples.live Samples.out_of_quota "What?"
                Samples.gpt4 0)) = None.
Proof.
  assert (H : 0 <= 1 # 2 /\ 1 # 2 < 1) by (split; [discriminate | reflexivity]).
  split; [exact H|]. split; [exact H|]. split; [exact H|].
  apply (fallback_metrics_are_mock Samples.live Samples.out_of_quota "What?"
           Samples.gpt4 0 H H H).
Defined.

End Fallback.

(** ** Aggregation *)

Section Aggregation.
Import Models LLMService Main.

Lemma collect_ok {A B : Type} (f : A -> result B) (P : B -> Prop) (l : list A) :
  Forall (fun x => exists y, f x = Ok y /\ P y) l ->
  exists ys, collect f l = Ok ys /\ Forall P ys /\ length ys = length l.
Proof.
  induction l as [|x l IH]; intros H; simpl.
  - exists []. repeat split. constructor.
  - inversion H as [|? ? [y [Hy HP]] Hl]; subst.
    destruct (IH Hl) as [ys [Hys [HPs Hlen]]].
    exists (y :: ys). rewrite Hy, Hys. simpl. repeat split.
    + now constructor.
    + now rewrite Hlen.
Qed.

Lemma metric_value_ok (key : string) (r : gmap string pyval) :
  In key metrics_keys -> numeric_metrics r = true -> has_key "metrics" r = true ->
  exists v, metric_value key r = Ok v /\ is_number v.
Proof.
  unfold numeric_metrics, has_key, metric_value. intros Hkey Hnum Hhas.
  destruct (r !! "metrics") as [[| | |m]|]; try discriminate.
  rewrite forallb_forall in Hnum. specialize (Hnum key Hkey).
  destruct (m !! key) as [[| |q|]|]; try discriminate; simpl.
  - exists (PNum q). split; [reflexivity | now exists q].
  - exists (PNum 0). split; [reflexivity | now exists 0].
Qed.

Lemma as_number_ok (v : pyval) :
  is_number v -> exists q, as_number v = Ok q /\ True.
Proof. intros [q ->]. now exists q. Qed.

Lemma aggregate_key_ok (responses : list (gmap string pyval))
    (aggregates : gmap string pyval) (key : string) :
  In key metrics_keys ->
  Forall (fun r => numeric_metrics r = true) responses ->
  exists aggregates', aggregate_key responses aggregates key = Ok aggregates'.
Proof.
  intros Hkey Hnum. unfold aggregate_key.
  destruct (collect_ok (metric_value key) is_number
              (List.filter (has_key "metrics") responses)) as [values [-> [Hvals _]]].
  { apply Forall_forall. intros r Hr. apply list_elem_of_In, filter_In in Hr.
    destruct Hr as [Hin Hhas]. apply metric_value_ok; try assumption.
    rewrite Forall_forall in Hnum. apply Hnum. now apply list_elem_of_In. }
  simpl. destruct values as [|v values]; [now eexists|].
  destruct (collect_ok as_number (fun _ => True) (v :: values))
    as [nums [-> [_ Hlen]]].
  { eapply Forall_impl; [exact Hvals|]. intros x Hx. now apply as_number_ok. }
  simpl. destruct nums as [|x rest]; now eexists.
Qed.

Lemma aggregate_keys_ok (responses : list (gmap string pyval)) (keys : list string) :
  (forall key, In key keys -> In key metrics_keys) ->
  Forall (fun r => numeric_metrics r = true) responses ->
  forall aggregates,
  exists aggregates', aggregate_keys responses aggregates keys = Ok aggregates'.
Proof.
  intros Hkeys Hnum. induction keys as [|key keys IH]; intros aggregates; simpl.
  - now eexists.
  - destruct (aggregate_key_ok responses aggregates key) as [aggregates' ->];
      [apply Hkeys; now left | exact Hnum |].
    simpl. apply IH. intros k Hk. apply Hkeys. now right.
Qed.

(** An empty batch gives the empty summary. *)
Example aggregate_empty : calculate_aggregate_metrics [] = Ok ∅.
Proof. reflexivity. Qed.

Lemma no_error_count (responses : list (gmap string pyval)) :
  Forall (fun r => has_key "error" r = false) responses ->
  List.filter (has_key "error") responses = [].
Proof.
  induction 1 as [|r l Hr _ IH]; simpl; [reflexivity|]. now rewrite Hr.
Qed.

Lemma ratio_one (n : nat) :
  (0 < n)%nat -> PyNum.div (PyNum.of_nat n) (PyNum.of_nat (n + 0)) = 1.
Proof.
  intros Hn. rewrite Nat.add_0_r. apply div_exact; [|reflexivity].
  pose proof (of_nat_pos n Hn). field. lra.
Qed.

Lemma calculate_nonempty (responses : list (gmap string pyval)) :
  responses <> [] ->
  calculate_aggregate_metrics responses =
  (aggregates <- aggregate_keys responses ∅ metrics_keys ;;
   Ok (<["success_rate" :=
           PNum (PyNum.div (PyNum.of_nat (length responses))
                   (PyNum.of_nat (length responses
                                  + length (List.filter (has_key "error") responses))))]>
       (<["total_responses" := PNum (PyNum.of_nat (length responses))]> aggregates))).
Proof. destruct responses; [contradiction | reflexivity]. Qed.

Lemma filtered_success_rate (responses : list (gmap string pyval)) :
  responses <> [] ->
  Forall (fun r => has_key "error" r = false) responses ->
  Forall (fun r => numeric_metrics r = true) responses ->
  exists aggregates,
    calculate_aggregate_metrics responses = Ok aggregates /\
    aggregates !! "success_rate" = Some (PNum 1).
Proof.
  intros Hne Herr Hnum. rewrite calculate_nonempty by exact Hne.
  destruct (aggregate_keys_ok responses metrics_keys (fun _ H => H) Hnum ∅)
    as [aggregates ->].
  eexists. split; [reflexivity|].
  rewrite lookup_insert_eq, (no_error_count _ Herr).
  rewrite ratio_one; [reflexivity|].
  destruct responses; [contradiction | simpl; lia].
Qed.

(** C2.  On a list of responses that is not empty and in which no entry
    has the key [error] (the list [run_experiment] passes, whose metrics
    are numbers), the aggregation returns a summary whose [success_rate] is
    exactly 1: the count of failures in its denominator is 0. *)
Theorem success_rate_is_one (responses : list (gmap string pyval))
    (Hne : responses <> [])
    (Herr : Forall (fun r => has_key "error" r = false) responses)
    (Hnum : Forall (fun r => numeric_metrics r = true) responses) :
  length (List.filter (has_key "error") responses) = 0%nat /\
  exists aggregates,
    calculate_aggregate_metrics responses = Ok aggregates /\
    aggregates !! "success_rate" = Some (PNum 1) /\
    aggregates !! "total_responses"
    = Some (PNum (PyNum.of_nat (length responses))).
Proof.
  split; [now rewrite no_error_count|].
  rewrite calculate_nonempty by exact Hne.
  destruct (aggregate_keys_ok responses metrics_keys (fun _ H => H) Hnum ∅)
    as [aggregates ->].
  eexists. split; [reflexivity|]. split.
  - rewrite lookup_insert_eq, (no_error_count _ Herr).
    rewrite ratio_one; [reflexivity|].
    destruct responses; [contradiction | simpl; lia].
  - rewrite lookup_insert_ne by discriminate. now rewrite lookup_insert_eq.
Qed.

Lemma success_rate_is_one_witness :
  Samples.two_answers <> [] /\
  Forall (fun r => has_key "error" r = false) Samples.two_answers /\
  Forall (fun r => numeric_metrics r = true) Samples.two_answers /\
  exists aggregates,
    calculate_aggregate_metrics Samples.two_answers = Ok aggregates /\
    aggregates !! "success_rate" = Some (PNum 1) /\
    aggregates !! "total_responses" = Some (PNum 2).
Proof.
  assert (Hne : Samples.two_answers <> []) by discriminate.
  assert (Herr : Forall (fun r => has_key "error" r = false) Samples.two_answers).
  { repeat constructor; vm_compute; reflexivity. }
  assert (Hnum : Forall (fun r => numeric_metrics r = true) Samples.two_answers).
  { repeat constructor; vm_compute; reflexivity. }
  split; [exact Hne|]. split; [exact Herr|]. split; [exact Hnum|].
  exact (proj2 (success_rate_is_one Samples.two_answers Hne Herr Hnum)).
Defined.

Lemma run_entry_numeric (cfg : ModelConfig) (run_num : nat)
    (outcome : result response_data) :
  numeric_metrics (run_entry cfg run_num outcome) = true.
Proof. destruct outcome; reflexivity. Qed.

Lemma run_entry_error (cfg : ModelConfig) (run_num : nat)
    (outcome : result response_data) :
  has_key "error" (run_entry cfg run_num outcome)
  = match outcome with Ok _ => false | Raise _ => true end.
Proof. destruct outcome; reflexivity. Qed.

Lemma all_responses_numeric (svc : service) (worlds : nat -> nat -> world)
    (req : ExperimentRequest) :
  Forall (fun r => numeric_metrics r = true) (all_responses svc worlds req).
Proof.
  unfold all_responses. apply Forall_concat, Forall_forall.
  intros l Hl. apply elem_of_lookup_imap in Hl as [i [cfg [-> _]]].
  apply Forall_forall. intros r Hr.
  apply list_elem_of_In, in_map_iff in Hr as [run_num [<- _]].
  apply run_entry_numeric.
Qed.

(** Whatever the runs do, the summary returned by [run_experiment] is
    empty (no run succeeded) or reports a success rate of 1. *)
Lemma run_experiment_success_rate (svc : service) (worlds : nat -> nat -> world)
    (req : ExperimentRequest) :
  exists aggregates,
    run_experiment svc worlds req = Ok (all_responses svc worlds req, aggregates) /\
    (aggregates = ∅ \/ aggregates !! "success_rate" = Some (PNum 1)).
Proof.
  unfold run_experiment.
  set (successful := List.filter (fun r => negb (has_key "error" r))
                       (all_responses svc worlds req)).
  destruct successful as [|r l] eqn:E.
  - exists ∅. split; [reflexivity | now left].
  - rewrite <- E.
    destruct (filtered_success_rate successful) as [aggregates [-> H]].
    + rewrite E. discriminate.
    + apply Forall_forall. intros x Hx.
      apply list_elem_of_In, filter_In in Hx as [_ Hx].
      now apply negb_true_iff in Hx.
    + apply Forall_forall. intros x Hx.
      apply list_elem_of_In, filter_In in Hx as [Hx _].
      pose proof (all_responses_numeric svc worlds req) as Hall.
      rewrite Forall_forall in Hall. apply Hall. now apply list_elem_of_In.
    + exists aggregates. split; [reflexivity | now right].
Qed.

(** C1, evaluated on the code.  In an experiment of three runs whose
    third run fails with "service unavailable" (no keyword matches, the
    exception is raised again), the batch has two successes and one
    failure, but [run_experiment] reports [success_rate] 1 over 2
    responses, not 2/3; and the aggregation applied to the full batch
    gives 3/4. *)
Theorem success_rate_ignores_failure :
  generate_response Samples.live Samples.unavailable
    (prompt Samples.three_runs) Samples.gpt4 = Raise "service unavailable" /\
  List.map (has_key "error")
    (all_responses Samples.live Samples.two_then_failure Samples.three_runs)
  = [false; false; true] /\
  aggregate_of "success_rate"
    (run_experiment Samples.live Samples.two_then_failure Samples.three_runs)
  = Some (PNum 1) /\
  aggregate_of "total_responses"
    (run_experiment Samples.live Samples.two_then_failure Samples.three_runs)
  = Some (PNum 2) /\
  aggregate_of "success_rate"
    (aggregates <- calculate_aggregate_metrics
                     (all_responses Samples.live Samples.two_then_failure
                        Samples.three_runs) ;;
     Ok ([], aggregates))
  = Some (PNum (3 # 4)).
Proof. repeat split; vm_compute; reflexivity. Qed.

End Aggregation.

(** ** Dispatch: which calls raise, demo mode, initialisation *)

Section DispatchCases.
Import PyStr Models Metrics LLMService LLMServiceInit.

(** The value of [generate_response] in each of its cases. *)
Lemma generate_response_cases (self : service) (w : world) (prompt : string)
    (cfg : ModelConfig) :
  generate_response self w prompt cfg =
  if demo_mode self
  then Ok (_generate_demo_response self w prompt cfg (clock_start w))
  else match call_provider self w cfg with
       | Ok (text, usage) =>
           Ok {| response := text;
                 token_usage := usage;
                 metrics :=
                   _calculate_metrics text
                     (PyNum.mul (PyNum.sub (clock_end w) (clock_start w)) 1000) cfg;
                 model_config := Some cfg;
                 model_info := None |}
       | Raise e =>
           match classify e with
           | Other => Raise e
           | _ => Ok (_generate_demo_response self w prompt cfg (clock_start w))
           end
       end.
Proof.
  unfold generate_response, classify.
  destruct (demo_mode self); [reflexivity|].
  destruct (call_provider self w cfg) as [[text usage]|e]; [reflexivity|].
  destruct (any_keyword quota_keywords (lower e)); [reflexivity|].
  destruct (any_keyword auth_keywords (lower e)); reflexivity.
Qed.


Lemma template_choice (p : ModelProvider) (k : nat) :
  In (nth (k mod length (demo_responses p)) (demo_responses p) "")
     (demo_responses p).
Proof.
  apply nth_In. apply Nat.mod_upper_bound. destruct p; discriminate.
Qed.

Lemma template_not_banner (p : ModelProvider) (t rest : string) :
  In t (demo_responses p) ->
  startswith fallback_banner t = false /\
  startswith fallback_banner (t +:+ rest) = false.
Proof.
  destruct p; simpl; intros H;
    repeat (destruct H as [<- | H]; [split; reflexivity|]); destruct H.
Qed.

(** X2.  In demo mode [generate_response] always returns the demo response,
    without the fallback banner, whatever the provider would have answered
    and whether or not a client exists. *)
Theorem demo_mode_skips_provider (self : service) (w : world) (prompt : string)
    (cfg : ModelConfig) (Hdemo : demo_mode self = true) :
  generate_response self w prompt cfg
    = Ok (_generate_demo_response self w prompt cfg (clock_start w)) /\
  is_fallback (_generate_demo_response self w prompt cfg (clock_start w)) = false /\
  (forall answer,
     generate_response self (with_answer w answer) prompt cfg
     = generate_response self w prompt cfg) /\
  (forall openai anthropic,
     generate_response
       {| openai_client := openai; anthropic_client := anthropic;
          demo_mode := true |} w prompt cfg
     = generate_response self w prompt cfg).
Proof.
  split; [|split; [|split]].
  - now rewrite generate_response_cases, Hdemo.
  - unfold is_fallback, _generate_demo_response. rewrite Hdemo.
    cbn [negb response].
    pose proof (template_choice (provider cfg) (rand_choice w)) as Hin.
    match goal with |- context [if ?c then _ +:+ _ else _] => destruct c end;
      now apply (template_not_banner (provider cfg)).
  - intros answer. rewrite !generate_response_cases, Hdemo. reflexivity.
  - intros openai anthropic. rewrite !generate_response_cases, Hdemo.
    cbn [demo_mode]. unfold _generate_demo_response. rewrite Hdemo. reflexivity.
Qed.

Lemma demo_mode_skips_provider_witness :
  demo_mode {| openai_client := false; anthropic_client := false;
               demo_mode := true |} = true /\
  is_fallback
    (_generate_demo_response
       {| openai_client := false; anthropic_client := false; demo_mode := true |}
       Samples.unavailable "What?" Samples.gpt4
       (clock_start Samples.unavailable)) = false.
Proof.
  split; [reflexivity|].
  apply (demo_mode_skips_provider
           {| openai_client := false; anthropic_client := false; demo_mode := true |}
           Samples.unavailable "What?" Samples.gpt4 eq_refl).
Defined.

End DispatchCases.

(** ** Initialisation from the environment *)

Section Initialisation.
Import PyStr Models Metrics LLMService LLMServiceInit.

Lemma usable_key_false (key : option string) (placeholder : string) :
  usable_key key placeholder = false <->
  key = None \/ key = Some "" \/ key = Some placeholder.
Proof.
  unfold usable_key. destruct key as [k|].
  - rewrite andb_false_iff, negb_false_iff, String.eqb_eq. split.
    + intros [H | ->]; [|auto]. destruct k; [auto | discriminate].
    + intros [H | [H | H]]; try discriminate; injection H as ->; auto.
  - split; auto.
Qed.

Lemma not_initialized_is_other :
  classify "OpenAI client not initialized" = Other /\
  classify "Anthropic client not initialized" = Other.
Proof. split; reflexivity. Qed.

(** X3.  A service created with demo mode off and without a usable OpenAI key
    (variable unset, empty, or left at the placeholder) answers every
    OpenAI request by raising "OpenAI client not initialized": there is no
    fallback for a missing credential. *)
Theorem missing_openai_key_raises (env : gmap string string)
    (openai_fails anthropic_fails : bool) (w : world) (prompt : string)
    (cfg : ModelConfig)
    (Hlive : lower (default "false" (env !! "DEMO_MODE")) <> "true")
    (Hkey : env !! "OPENAI_API_KEY" = None \/
            env !! "OPENAI_API_KEY" = Some "" \/
            env !! "OPENAI_API_KEY" = Some "your_openai_api_key_here")
    (Hprov : provider cfg = OPENAI) :
  generate_response (__init__ env openai_fails anthropic_fails) w prompt cfg
  = Raise "OpenAI client not initialized".
Proof.
  apply usable_key_false in Hkey. apply String.eqb_neq in Hlive.
  rewrite generate_response_cases. unfold __init__, _initialize_clients.
  rewrite Hlive, Hkey. cbn [demo_mode andb].
  unfold call_provider. rewrite Hprov.
  unfold _generate_openai_response.
  destruct (usable_key _ _ && anthropic_fails); reflexivity.
Qed.

Lemma missing_openai_key_raises_witness :
  generate_response (__init__ ∅ false false) Samples.answers "What?" Samples.gpt4
  = Raise "OpenAI client not initialized".
Proof.
  apply missing_openai_key_raises;
    [discriminate | left; reflexivity | reflexivity].
Defined.

(** X4.  The demo switch is read without regard to case, and once it is on no
    client is created, whatever keys the environment holds; every request
    is then answered by the demo response. *)
Theorem demo_environment (env : gmap string string) (flag : string)
    (openai_fails anthropic_fails : bool) (w : world) (prompt : string)
    (cfg : ModelConfig)
    (Hflag : env !! "DEMO_MODE" = Some flag)
    (Htrue : lower flag = "true") :
  let self := __init__ env openai_fails anthropic_fails in
  demo_mode self = true /\
  openai_client self = false /\
  anthropic_client self = false /\
  generate_response self w prompt cfg
  = Ok (_generate_demo_response self w prompt cfg (clock_start w)).
Proof.
  intros self.
  assert (Hdemo : demo_mode self = true).
  { unfold self, __init__. cbn [demo_mode]. rewrite Hflag.
    change (default "false" (Some flag)) with flag. now rewrite Htrue. }
  split; [exact Hdemo|].
  unfold self, __init__, _initialize_clients in *. cbn [demo_mode] in Hdemo.
  rewrite Hdemo. cbn [fst snd openai_client anthropic_client].
  repeat split.
Qed.

Lemma demo_environment_witness :
  ({[ "DEMO_MODE" := "True" ]} : gmap string string) !! "DEMO_MODE" = Some "True" /\
  lower "True" = "true" /\
  demo_mode (__init__ {[ "DEMO_MODE" := "True" ]} false false) = true.
Proof.
  assert (H : ({[ "DEMO_MODE" := "True" ]} : gmap string string) !! "DEMO_MODE"
              = Some "True") by reflexivity.
  split; [exact H|]. split; [reflexivity|].
  apply (demo_environment {[ "DEMO_MODE" := "True" ]} "True" false false
           Samples.answers "What?" Samples.gpt4 H eq_refl).
Defined.

(** X5.  The two clients are created in one [try] block: when the constructor
    of the OpenAI client raises, the Anthropic client is not created
    either, and Anthropic requests raise although the key is usable. *)
Theorem openai_failure_disables_anthropic (env : gmap string string)
    (anthropic_fails : bool) (w : world) (prompt : string) (cfg : ModelConfig)
    (Hlive : lower (default "false" (env !! "DEMO_MODE")) <> "true")
    (Hkey : usable_key (env !! "OPENAI_API_KEY") "your_openai_api_key_here" = true)
    (Hprov : provider cfg = ANTHROPIC) :
  let self := __init__ env true anthropic_fails in
  openai_client self = false /\
  anthropic_client self = false /\
  generate_response self w prompt cfg = Raise "Anthropic client not initialized".
Proof.
  intros self. apply String.eqb_neq in Hlive.
  assert (Hself : self = {| openai_client := false; anthropic_client := false;
                            demo_mode := false |}).
  { unfold self, __init__, _initialize_clients. now rewrite Hlive, Hkey. }
  rewrite Hself. repeat split.
  rewrite generate_response_cases. cbn [demo_mode].
  unfold call_provider. rewrite Hprov. reflexivity.
Qed.

Lemma openai_failure_disables_anthropic_witness :
  anthropic_client
    (__init__ (<["OPENAI_API_KEY" := "sk-1"]> {[ "ANTHROPIC_API_KEY" := "sk-2" ]})
       true false) = false.
Proof.
  apply (openai_failure_disables_anthropic
           (<["OPENAI_API_KEY" := "sk-1"]> {[ "ANTHROPIC_API_KEY" := "sk-2" ]})
           false Samples.answers "What?"
           {| provider := ANTHROPIC; model_name := "claude-3-opus";
              temperature := 1; max_tokens := None; top_p := None;
              frequency_penalty := None; presence_penalty := None |});
    [discriminate | reflexivity | reflexivity].
Defined.

(** X6.  The Hugging Face path needs no client: with demo mode off and an
    answer from the pipeline, the call returns that text, and the token
    estimate it reports is the token count of the metrics. *)
Theorem huggingface_needs_no_client (self : service) (w : world) (prompt : string)
    (cfg : ModelConfig) (reply : provider_reply)
    (Hlive : demo_mode self = false)
    (Hprov : provider cfg = HUGGINGFACE)
    (Hans : provider_answer w = Ok reply) :
  exists r,
    generate_response self w prompt cfg = Ok r /\
    response r = reply_text reply /\
    model_config r = Some cfg /\
    is_fallback r = startswith fallback_banner (reply_text reply) /\
    token_usage r !! "estimated_tokens" = Some (inject_Z (token_count (metrics r))) /\
    token_count (metrics r) = Z.of_nat (length (split (reply_text reply))).
Proof.
  rewrite generate_response_cases, Hlive. unfold call_provider. rewrite Hprov.
  unfold _generate_huggingface_response. rewrite Hans. cbn [bind].
  eexists. split; [reflexivity|]. cbn [response model_config token_usage metrics].
  repeat split.
Qed.

Lemma huggingface_needs_no_client_witness :
  exists r,
    generate_response
      {| openai_client := false; anthropic_client := false; demo_mode := false |}
      Samples.answers "What?"
      {| provider := HUGGINGFACE; model_name := "gpt2"; temperature := 1;
         max_tokens := None; top_p := None; frequency_penalty := None;
         presence_penalty := None |} = Ok r /\
    response r = "Paris is the capital of France.".
Proof.
  destruct (huggingface_needs_no_client
              {| openai_client := false; anthropic_client := false;
                 demo_mode := false |}
              Samples.answers "What?"
              {| provider := HUGGINGFACE; model_name := "gpt2"; temperature := 1;
                 max_tokens := None; top_p := None; frequency_penalty := None;
                 presence_penalty := None |}
              _ eq_refl eq_refl eq_refl) as [r [H1 [H2 _]]].
  exists r. split; [exact H1 | exact H2].
Defined.

End Initialisation.

(** ** Metrics of the success path *)

Section MetricsRanges.
Import PyStr Models Metrics.

Lemma sentiment_bounds (text : string) : -1 <= _calculate_sentiment text <= 1.
Proof.
  unfold _calculate_sentiment.
  set (p := Z.of_nat (count_if _ _)). set (n := Z.of_nat (count_if _ _)).
  assert (Hp : (0 <= p)%Z) by (subst p; lia).
  assert (Hn : (0 <= n)%Z) by (subst n; lia).
  destruct (p + n =? 0)%Z eqn:E.
  - split; discriminate.
  - apply Z.eqb_neq in E. rewrite div_correct.
    assert (Hden : 0 < inject_Z (p + n)) by (unfold Qlt; simpl; lia).
    split.
    + apply Qle_shift_div_l; [exact Hden|]. unfold Qle; simpl. lia.
    + apply Qle_shift_div_r; [exact Hden|]. unfold Qle; simpl. lia.
Qed.

(** The value of [_calculate_coherence] on a text with a period and at
    least one piece that is not blank. *)
Lemma coherence_unfold (text : string) (x : Q) (l : list Q) :
  occurs "." text ->
  List.map (fun sentence => PyNum.of_nat (length (split sentence)))
    (List.filter (fun sentence => truthy (strip sentence)) (split_on "." text))
  = x :: l ->
  _calculate_coherence text =
  let lengths := x :: l in
  let avg_length := PyNum.div (PyNum.sum lengths) (PyNum.of_nat (length lengths)) in
  let variance :=
    PyNum.div
      (PyNum.sum (List.map (fun v => PyNum.mul (PyNum.sub v avg_length)
                                               (PyNum.sub v avg_length)) lengths))
      (PyNum.of_nat (length lengths)) in
  PyNum.div 1 (PyNum.add 1 (PyNum.div variance (PyNum.max avg_length 1))).
Proof.
  intros Hocc Hl. unfold _calculate_coherence. cbv zeta.
  pose proof (split_on_period text) as Hperiod.
  destruct (length (split_on "." text) <? 2)%nat.
  - now destruct (proj1 Hperiod eq_refl).
  - now rewrite Hl.
Qed.

Lemma variance_nonneg (avg : Q) (lengths : list Q) :
  lengths <> [] ->
  0 <= PyNum.div
         (PyNum.sum (List.map (fun v => PyNum.mul (PyNum.sub v avg)
                                                  (PyNum.sub v avg)) lengths))
         (PyNum.of_nat (length lengths)).
Proof.
  intros Hne. rewrite div_correct. apply Qle_shift_div_l.
  - apply of_nat_pos. destruct lengths; [contradiction | simpl; lia].
  - rewrite Qmult_0_l. apply sum_nonneg, squares_nonneg.
Qed.

Lemma coherence_bounds (text : string) : 0 <= _calculate_coherence text <= 1.
Proof.
  destruct (contains "." text) eqn:Hc.
  - apply contains_spec in Hc.
    destruct (List.map (fun sentence => PyNum.of_nat (length (split sentence)))
                (List.filter (fun sentence => truthy (strip sentence))
                   (split_on "." text))) as [|x l] eqn:Hl.
    + unfold _calculate_coherence. cbv zeta. rewrite Hl.
      destruct (length (split_on "." text) <? 2)%nat; split; discriminate.
    + rewrite (coherence_unfold text x l Hc Hl). cbv zeta.
      set (avg := PyNum.div (PyNum.sum (x :: l)) (PyNum.of_nat (length (x :: l)))).
      pose proof (variance_nonneg avg (x :: l) ltac:(discriminate)) as Hv.
      destruct (coherence_formula_bounds _ avg Hv) as [Hlo Hhi].
      split; [apply Qlt_le_weak; exact Hlo | exact Hhi].
  - assert (H : ~ occurs "." text).
    { intros H. apply contains_spec in H. congruence. }
    apply split_on_period in H. unfold _calculate_coherence. cbv zeta.
    rewrite H. split; discriminate.
Qed.

Lemma cost_nonneg (token_count : Z) (cfg : ModelConfig) :
  (0 <= token_count)%Z ->
  0 <= _estimate_cost token_count cfg <= (inject_Z token_count / 1000) * (3 # 100).
Proof.
  intros Ht. unfold _estimate_cost. rewrite mul_correct, div_correct.
  assert (H0 : 0 <= inject_Z token_count / 1000).
  { apply Qle_shift_div_l; [reflexivity|]. rewrite Qmult_0_l.
    unfold Qle; simpl. lia. }
  pose proof (rate_nonneg (model_name cfg)) as Hr.
  assert (Hmax : default (1 # 1000) (cost_per_1k_tokens !! model_name cfg)
                 <= 3 # 100).
  { destruct (rate_cases (model_name cfg))
      as [[_ ->] | [[_ ->] | [[_ ->] | [[_ ->] | [_ ->]]]]]; discriminate. }
  split; nra.
Qed.

(** X7.  Every metrics record of the success path is within its ranges: the
    token count and the cost are not negative (the cost at most 0.03 per
    thousand tokens), the three advanced scores are present with the
    sentiment in [-1, 1] and the readability and the coherence in [0, 1],
    and the latency is the one handed in. *)
Theorem calculated_metrics_in_range (response : string) (latency : Q)
    (cfg : ModelConfig) :
  let m := _calculate_metrics response latency cfg in
  (0 <= token_count m)%Z /\
  0 <= cost_estimate m <= (inject_Z (token_count m) / 1000) * (3 # 100) /\
  latency_ms m = latency /\
  (exists s, sentiment_score m = Some s /\ -1 <= s <= 1) /\
  (exists s, readability_score m = Some s /\ 0 <= s <= 1) /\
  (exists s, coherence_score m = Some s /\ 0 <= s <= 1).
Proof.
  intros m. subst m. unfold _calculate_metrics.
  cbn [token_count cost_estimate latency_ms sentiment_score readability_score
       coherence_score].
  split; [lia|]. split; [apply cost_nonneg; lia|]. split; [reflexivity|].
  split; [eexists; split; [reflexivity | apply sentiment_bounds]|].
  split; [|eexists; split; [reflexivity | apply coherence_bounds]].
  eexists; split; [reflexivity|].
  unfold _calculate_readability.
  destruct (_ || _); [split; discriminate | apply clamp_bounds].
Qed.

End MetricsRanges.

(** ** Syllables and the sign of the sentiment *)

Section Words.
Import PyStr Models Metrics.

Lemma syllable_fold (l : list ascii) (n : Z) (b : bool) :
  (n <= fst (fold_left syllable_step l (n, b)) <= n + Z.of_nat (length l))%Z.
Proof.
  revert n b; induction l as [|c l IH]; intros n b.
  - simpl. lia.
  - cbn [fold_left length].
    assert (Hstep : syllable_step (n, b) c
                    = (if contains (String c EmptyString) vowels && negb b
                       then (n + 1)%Z else n,
                       contains (String c EmptyString) vowels)) by reflexivity.
    rewrite Hstep.
    destruct (contains (String c EmptyString) vowels && negb b).
    + specialize (IH (n + 1)%Z (contains (String c EmptyString) vowels)). lia.
    + specialize (IH n (contains (String c EmptyString) vowels)). lia.
Qed.

Lemma lower_length (s : string) :
  length (list_ascii_of_string (lower s)) = String.length s.
Proof. induction s as [|c s IH]; simpl; [reflexivity | now rewrite IH]. Qed.

(** X8.  A word counts at least one syllable and at most one per character,
    and its letter case does not matter. *)
Theorem syllable_count_bounds (word : string) :
  (1 <= _count_syllables word <= Z.max 1 (Z.of_nat (String.length word)))%Z /\
  _count_syllables (lower word) = _count_syllables word.
Proof.
  split.
  - unfold _count_syllables.
    pose proof (syllable_fold (list_ascii_of_string (lower word)) 0 false) as H.
    rewrite lower_length in H.
    destruct (fold_left syllable_step _ _) as [n b]. cbn [fst] in H.
    destruct (endswith "e" (lower word)); lia.
  - unfold _count_syllables. now rewrite lower_idem.
Qed.

Lemma fraction (a b : Z) :
  (0 < b)%Z -> inject_Z a / inject_Z b == a # Z.to_pos b.
Proof.
  intros Hb. destruct b as [|p|p]; try lia.
  unfold Qeq, Qdiv, Qmult, Qinv, inject_Z; simpl. lia.
Qed.

(** X9.  The sentiment score is positive exactly when the positive lexicon
    tokens outnumber the negative ones, negative in the opposite case, 1
    exactly when there are positive tokens and no negative one, and -1
    exactly when there are negative tokens and no positive one. *)
Theorem sentiment_sign (text : string) :
  let words := split (lower text) in
  let pos := length (filter (.∈ positive_words) words) in
  let neg := length (filter (.∈ negative_words) words) in
  (0 < _calculate_sentiment text <-> (neg < pos)%nat) /\
  (_calculate_sentiment text < 0 <-> (pos < neg)%nat) /\
  (_calculate_sentiment text = 1 <-> (0 < pos)%nat /\ neg = 0%nat) /\
  (_calculate_sentiment text = -1 <-> pos = 0%nat /\ (0 < neg)%nat).
Proof.
  intros words pos neg.
  assert (Hdef : _calculate_sentiment text =
                 if (Z.of_nat pos + Z.of_nat neg =? 0)%Z then 0
                 else PyNum.div (inject_Z (Z.of_nat pos - Z.of_nat neg))
                                (inject_Z (Z.of_nat pos + Z.of_nat neg))).
  { unfold _calculate_sentiment. fold words. now rewrite !count_if_filter. }
  rewrite Hdef. destruct (Z.of_nat pos + Z.of_nat neg =? 0)%Z eqn:E.
  - apply Z.eqb_eq in E. repeat split; try (intros H; exfalso; lia);
      try discriminate; intros [H1 H2]; lia.
  - apply Z.eqb_neq in E.
    assert (Hden : (0 < Z.of_nat pos + Z.of_nat neg)%Z) by lia.
    pose proof (fraction (Z.of_nat pos - Z.of_nat neg) _ Hden) as Hf.
    assert (Hs : PyNum.div (inject_Z (Z.of_nat pos - Z.of_nat neg))
                   (inject_Z (Z.of_nat pos + Z.of_nat neg))
                 == Z.of_nat pos - Z.of_nat neg
                    # Z.to_pos (Z.of_nat pos + Z.of_nat neg)).
    { now rewrite div_correct. }
    assert (Hone : forall r : Q, Qred r = r ->
              (PyNum.div (inject_Z (Z.of_nat pos - Z.of_nat neg))
                 (inject_Z (Z.of_nat pos + Z.of_nat neg)) = r <->
               (Z.of_nat pos - Z.of_nat neg
                # Z.to_pos (Z.of_nat pos + Z.of_nat neg)) == r)).
    { intros r Hr. split.
      - intros <-. now rewrite Hs.
      - intros H. unfold PyNum.div. rewrite <- Hr. apply Qred_complete.
        now rewrite Hf. }
    split; [|split; [|split]].
    + rewrite Hs. unfold Qlt; simpl. lia.
    + rewrite Hs. unfold Qlt; simpl. lia.
    + rewrite (Hone 1 eq_refl). unfold Qeq; simpl.
      rewrite Z2Pos.id by lia. lia.
    + rewrite (Hone (-1) eq_refl). unfold Qeq; simpl.
      rewrite Z2Pos.id by lia. lia.
Qed.

End Words.

(** ** Blank texts and texts of even sentences *)

Section EdgeTexts.
Import PyStr Models Metrics.

Lemma space_facts (c : ascii) :
  isspace c = true ->
  lower_char c = c /\ Ascii.eqb "." c = false /\ is_terminator c = false.
Proof.
  destruct c as [[] [] [] [] [] [] [] []]; intros H;
    try discriminate H; repeat split.
Qed.

Lemma blank_cons (c : ascii) (s : string) :
  blank (String c s) <-> isspace c = true /\ blank s.
Proof.
  unfold blank. simpl. split.
  - intros H. inversion H; subst. now split.
  - intros [Hc Hs]. now constructor.
Qed.

Lemma split_go_blank (acc : list ascii) (s : string) :
  blank s -> split_go acc s = flush acc.
Proof.
  revert acc; induction s as [|c s IH]; intros acc H; [reflexivity|].
  apply blank_cons in H as [Hc Hs]. simpl. rewrite Hc, (IH [] Hs).
  simpl. apply app_nil_r.
Qed.

Lemma lower_blank (s : string) : blank s -> lower s = s.
Proof.
  induction s as [|c s IH]; intros H; [reflexivity|].
  apply blank_cons in H as [Hc Hs]. simpl.
  now rewrite (proj1 (space_facts c Hc)), (IH Hs).
Qed.

Lemma blank_no_period (s : string) : blank s -> ~ occurs "." s.
Proof.
  intros H Hocc. apply contains_spec in Hocc.
  induction s as [|c s IH]; [discriminate|].
  apply blank_cons in H as [Hc Hs].
  change (contains "." (String c s))
    with (Ascii.eqb "." c && true || contains "." s) in Hocc.
  destruct (space_facts c Hc) as [_ [Hdot _]]. rewrite Hdot in Hocc.
  auto.
Qed.

(** X10.  The metrics of a response made of white space only (the empty response
    included): no token, cost 0, sentiment 0, readability 0, coherence 1. *)
Theorem blank_response_metrics (response : string) (latency : Q)
    (cfg : ModelConfig) (Hblank : blank response) :
  let m := _calculate_metrics response latency cfg in
  split response = [] /\
  token_count m = 0%Z /\
  cost_estimate m = 0 /\
  sentiment_score m = Some 0 /\
  readability_score m = Some 0 /\
  coherence_score m = Some 1.
Proof.
  intros m. subst m.
  assert (Hsplit : split response = []) by now apply (split_go_blank []).
  unfold _calculate_metrics.
  cbn [token_count cost_estimate sentiment_score readability_score
       coherence_score].
  rewrite Hsplit. cbn [length Z.of_nat].
  split; [reflexivity|]. split; [reflexivity|]. split; [|split; [|split]].
  - unfold _estimate_cost, PyNum.mul.
    apply (Qred_complete _ 0). rewrite div_correct.
    change (inject_Z 0) with 0. field.
  - unfold _calculate_sentiment. now rewrite (lower_blank _ Hblank), Hsplit.
  - unfold _calculate_readability. rewrite Hsplit. cbn [length].
    now rewrite orb_true_r.
  - unfold _calculate_coherence. cbv zeta.
    now rewrite (proj2 (split_on_period response) (blank_no_period _ Hblank)).
Qed.

Lemma blank_response_metrics_witness :
  blank "  " /\
  coherence_score (_calculate_metrics "  " 10 Samples.gpt4) = Some 1.
Proof.
  assert (H : blank "  ") by (repeat constructor).
  split; [exact H|].
  apply (blank_response_metrics "  " 10 Samples.gpt4 H).
Defined.





End EdgeTexts.

(** ** Aggregation: the success rate and the statistics of a key *)

Section AggregateStatistics.
Import Models LLMService Main.













(** X12.  The success rate reported for any batch of entries with numeric
    metrics that is not empty: the number of entries over that number plus
    the number of entries with the key [error].  It is therefore positive
    and at most 1, and it is 1 exactly when no entry has the key [error];
    [total_responses] counts every entry, failures included. *)
Theorem success_rate_formula (responses : list (gmap string pyval))
    (Hne : responses <> [])
    (Hnum : Forall (fun r => numeric_metrics r = true) responses) :
  exists aggregates rate,
    calculate_aggregate_metrics responses = Ok aggregates /\
    aggregates !! "success_rate" = Some (PNum rate) /\
    aggregates !! "total_responses" = Some (PNum (PyNum.of_nat (length responses))) /\
    rate == PyNum.of_nat (length responses)
            / PyNum.of_nat (length responses
                            + length (List.filter (has_key "error") responses)) /\
    0 < rate <= 1 /\
    (rate = 1 <-> List.filter (has_key "error") responses = []).
Proof.
  rewrite calculate_nonempty by exact Hne.
  destruct (aggregate_keys_ok responses metrics_keys (fun _ H => H) Hnum ∅)
    as [aggregates ->].
  set (n := length responses).
  set (e := length (List.filter (has_key "error") responses)).
  assert (Hn : (0 < n)%nat) by (subst n; destruct responses; [contradiction | simpl; lia]).
  assert (Hfrac : PyNum.of_nat n / PyNum.of_nat (n + e)
                  == Z.of_nat n # Z.to_pos (Z.of_nat (n + e))).
  { apply fraction. lia. }
  eexists. exists (PyNum.div (PyNum.of_nat n) (PyNum.of_nat (n + e))).
  split; [reflexivity|]. split; [now rewrite lookup_insert_eq|].
  split; [rewrite lookup_insert_ne by discriminate; now rewrite lookup_insert_eq|].
  split; [apply div_correct|]. split; [|split].
  - rewrite div_correct, Hfrac. unfold Qlt, Qle; simpl.
    rewrite Z2Pos.id by lia. lia.
  - intros H. assert (Hq : PyNum.of_nat n / PyNum.of_nat (n + e) == 1).
    { rewrite <- div_correct, H. reflexivity. }
    rewrite Hfrac in Hq. unfold Qeq in Hq; simpl in Hq.
    rewrite Z2Pos.id in Hq by lia.
    assert (He : e = 0%nat) by lia.
    subst e. now apply length_zero_iff_nil.
  - intros H. subst e. rewrite H. apply ratio_one. exact Hn.
Qed.

Lemma success_rate_formula_witness :
  exists aggregates,
    calculate_aggregate_metrics
      (all_responses Samples.live Samples.two_then_failure Samples.three_runs)
    = Ok aggregates.
Proof.
  destruct (success_rate_formula
              (all_responses Samples.live Samples.two_then_failure
                 Samples.three_runs))
    as [aggregates [rate [H _]]].
  - intros H. apply (f_equal (@length _)) in H. vm_compute in H. discriminate.
  - apply all_responses_numeric.
  - now exists aggregates.
Defined.



End AggregateStatistics.

(** ** The entries of an experiment *)

Section ExperimentEntries.
Import Models LLMService Main.

(** X14.  A batch that is not empty and in which no entry has metrics (a batch
    of failures, say) is summarised without any statistics: the summary
    holds [total_responses] and [success_rate] and nothing else. *)
Theorem summary_without_metrics (responses : list (gmap string pyval))
    (Hne : responses <> [])
    (Hnone : Forall (fun r => has_key "metrics" r = false) responses) :
  calculate_aggregate_metrics responses =
  Ok (<["success_rate" :=
          PNum (PyNum.div (PyNum.of_nat (length responses))
                  (PyNum.of_nat
                     (length responses
                      + length (List.filter (has_key "error") responses))))]>
      (<["total_responses" := PNum (PyNum.of_nat (length responses))]> ∅)).
Proof.
  rewrite calculate_nonempty by exact Hne.
  assert (Hfil : List.filter (has_key "metrics") responses = []).
  { clear Hne. induction Hnone as [|r l Hr _ IH]; [reflexivity|].
    simpl. now rewrite Hr. }
  assert (Hkey : forall aggregates key,
             aggregate_key responses aggregates key = Ok aggregates).
  { intros aggregates key. unfold aggregate_key. now rewrite Hfil. }
  unfold metrics_keys. cbn [aggregate_keys].
  repeat (rewrite Hkey; cbn [bind]). reflexivity.
Qed.

Lemma summary_without_metrics_witness :
  calculate_aggregate_metrics
    [Main.run_entry Samples.gpt4 0 (Raise "service unavailable")]
  = Ok (<["success_rate" := PNum (1 # 2)]>
        (<["total_responses" := PNum 1]> ∅)).
Proof.
  apply (summary_without_metrics
           [Main.run_entry Samples.gpt4 0 (Raise "service unavailable")]).
  - discriminate.
  - repeat constructor.
Defined.

Lemma map_lookup {A B : Type} (g : A -> B) (l : list A) (k : nat) :
  List.map g l !! k = g <$> l !! k.
Proof.
  revert k; induction l as [|x l IH]; intros [|k]; simpl; auto.
Qed.

Lemma rows_length {A B : Type} (f : nat -> A -> list B) (n : nat) (l : list A) :
  (forall i x, length (f i x) = n) ->
  length (concat (imap f l)) = (length l * n)%nat.
Proof.
  intros Hf. revert f Hf; induction l as [|x l IH]; intros f Hf; [reflexivity|].
  cbn [imap concat length]. rewrite length_app, Hf, IH; [lia|].
  intros i y. apply Hf.
Qed.

Lemma rows_lookup {A B : Type} (f : nat -> A -> list B) (n : nat) (l : list A)
    (i k : nat) (x : A) :
  (forall i x, length (f i x) = n) ->
  l !! i = Some x -> (k < n)%nat ->
  concat (imap f l) !! (i * n + k)%nat = f i x !! k.
Proof.
  intros Hf. revert f Hf i; induction l as [|y l IH]; intros f Hf i Hi Hk;
    [discriminate|].
  cbn [imap concat]. destruct i as [|i].
  - injection Hi as ->. rewrite lookup_app_l; [reflexivity | rewrite Hf; exact Hk].
  - rewrite lookup_app_r by (rewrite Hf; lia).
    rewrite Hf. replace (S i * n + k - n)%nat with (i * n + k)%nat by lia.
    apply (IH (fun j => f (S j))); [intros j z; apply Hf | exact Hi | exact Hk].
Qed.

(** X15.  [run_experiment] never raises and records one entry for every
    configuration and run, failed runs included, configuration by
    configuration in the order of the runs; an entry has the key [error]
    exactly when it has no metrics. *)
Theorem run_experiment_entries (svc : service) (worlds : nat -> nat -> world)
    (req : ExperimentRequest) :
  length (all_responses svc worlds req)
  = (length (model_configs req) * num_runs req)%nat /\
  (forall i cfg run_num,
     model_configs req !! i = Some cfg -> (run_num < num_runs req)%nat ->
     all_responses svc worlds req !! (i * num_runs req + run_num)%nat
     = Some (run_entry cfg run_num
               (generate_response svc (worlds i run_num) (prompt req) cfg))) /\
  Forall (fun r => has_key "error" r = negb (has_key "metrics" r) /\
                   has_key "metrics" r = has_key "response" r /\
                   has_key "run_number" r = true)
    (all_responses svc worlds req) /\
  exists aggregates,
    run_experiment svc worlds req = Ok (all_responses svc worlds req, aggregates).
Proof.
  set (row := fun (i : nat) (cfg : ModelConfig) =>
                List.map (fun run_num =>
                            run_entry cfg run_num
                              (generate_response svc (worlds i run_num)
                                 (prompt req) cfg))
                  (seq 0 (num_runs req))).
  assert (Hrow : forall i cfg, length (row i cfg) = num_runs req).
  { intros i cfg. unfold row. now rewrite length_map, length_seq. }
  split; [|split; [|split]].
  - apply (rows_length row _ _ Hrow).
  - intros i cfg run_num Hi Hk.
    change (all_responses svc worlds req) with (concat (imap row (model_configs req))).
    rewrite (rows_lookup row (num_runs req) _ i run_num cfg Hrow Hi Hk).
    unfold row. rewrite map_lookup, lookup_seq_lt by exact Hk. reflexivity.
  - unfold all_responses. apply Forall_concat, Forall_forall.
    intros l Hl. apply elem_of_lookup_imap in Hl as [i [cfg [-> _]]].
    apply Forall_forall. intros r Hr.
    apply list_elem_of_In, in_map_iff in Hr as [run_num [<- _]].
    destruct (generate_response _ _ _ _); repeat split.
  - destruct (run_experiment_success_rate svc worlds req) as [aggregates [H _]].
    now exists aggregates.
Qed.

End ExperimentEntries.

(** ** The data service *)

Section Storage.
Import Models Records DataService.
Variable dumps : gmap string pyval -> string.
Variable dumps_list : list string -> string.

Lemma row_exists_spec {A : Type} (table : gmap string A) (key : string) :
  row_exists table key = true <-> is_Some (table !! key).
Proof.
  unfold row_exists. destruct (table !! key); split; intros H; auto.
  - discriminate.
  - now destruct H.
Qed.

(** X16.  Saving a template stores its fields under the identifier returned:
    the template's own identifier when it has one that is not empty, the
    new identifier otherwise.  The creation time of a row that existed is
    kept, the update time is the current time, and no other row and no
    experiment is touched. *)
Theorem save_template_stores (db : database) (template : PromptTemplate)
    (uuid now : string) :
  let saved := save_template dumps_list db template uuid now in
  let template_id := fst saved in
  (forall i, id template = Some i -> i <> "" -> template_id = i) /\
  (id template = None \/ id template = Some "" -> template_id = uuid) /\
  (exists row,
     templates (snd saved) !! template_id = Some row /\
     tpl_name row = name template /\
     tpl_description row = description template /\
     tpl_template row = Records.template template /\
     tpl_category row = category template /\
     tpl_variables row = dumps_list (variables template) /\
     tpl_updated_at row = now /\
     tpl_created_at row
     = from_option tpl_created_at now (templates db !! template_id)) /\
  (forall other, other <> template_id ->
     templates (snd saved) !! other = templates db !! other) /\
  experiments (snd saved) = experiments db.
Proof.
  intros saved template_id. subst saved template_id.
  unfold save_template. cbn [fst snd templates experiments].
  split; [|split; [|split; [|split]]].
  - intros i Hi Hne. unfold template_id_of. rewrite Hi.
    destruct i; [contradiction | reflexivity].
  - intros [H | H]; unfold template_id_of; now rewrite H.
  - eexists. split; [apply lookup_insert_eq|].
    destruct (templates db !! template_id_of template uuid); repeat split.
  - intros other Hne. now rewrite lookup_insert_ne.
  - reflexivity.
Qed.

(** X17.  Deleting a template reports whether a row had that identifier, leaves
    no row under it and touches nothing else; deleting a template that was
    just saved under an identifier that was free gives the database back. *)
Theorem delete_template_removes (db : database) (template_id : string) :
  let deleted := delete_template db template_id in
  (fst deleted = true <-> is_Some (templates db !! template_id)) /\
  templates (snd deleted) !! template_id = None /\
  (forall other, other <> template_id ->
     templates (snd deleted) !! other = templates db !! other) /\
  experiments (snd deleted) = experiments db /\
  (fst deleted = false -> snd deleted = db) /\
  fst (delete_template (snd deleted) template_id) = false /\
  (forall template uuid now,
     template_id_of template uuid = template_id ->
     templates db !! template_id = None ->
     delete_template (snd (save_template dumps_list db template uuid now))
       template_id = (true, db)).
Proof.
  intros deleted. subst deleted. unfold delete_template.
  cbn [fst snd templates experiments].
  split; [apply row_exists_spec|]. split; [apply lookup_delete_eq|].
  split; [intros other Hne; now apply lookup_delete_ne|].
  split; [reflexivity|]. split; [|split].
  - intros H. destruct db as [exps tpls]. cbn [templates experiments] in *.
    f_equal. apply delete_id. unfold row_exists in H.
    now destruct (tpls !! template_id).
  - unfold row_exists. now rewrite lookup_delete_eq.
  - intros template uuid now Hid Hfree. unfold save_template.
    cbn [snd templates experiments]. rewrite Hid.
    unfold row_exists. rewrite lookup_insert_eq, delete_insert_id by exact Hfree.
    now destruct db.
Qed.


Lemma save_experiment_fresh (db : database) (er : ExperimentResult)
    (uuid : string) :
  experiments db !! uuid = None ->
  exists db' row,
    save_experiment dumps db er uuid = Ok (uuid, db') /\
    experiments db' !! uuid = Some row /\
    exp_experiment_group row = Some (Records.experiment_id er) /\
    exp_response row = response er /\
    exp_user_rating row = None /\
    (forall other, other <> uuid ->
       experiments db' !! other = experiments db !! other) /\
    get_experiment_count db' = S (get_experiment_count db) /\
    templates db' = templates db.
Proof.
  intros Hfree. unfold save_experiment. rewrite Hfree. eexists. eexists.
  split; [reflexivity|]. cbn [experiments templates].
  split; [apply lookup_insert_eq|]. repeat split.
  - intros other Hne. now apply lookup_insert_ne.
  - unfold get_experiment_count. cbn [experiments].
    now apply map_size_insert_None.
Qed.

(** X19.  Saving an experiment result under an identifier that is free adds
    exactly one row, unrated and without notes, whose group is the
    identifier of the experiment, and returns the new identifier; under an
    identifier that is taken it raises and stores nothing. *)
Theorem save_experiment_adds_row (db : database) (er : ExperimentResult)
    (uuid : string) :
  (experiments db !! uuid = None ->
     exists db' row,
       save_experiment dumps db er uuid = Ok (uuid, db') /\
       experiments db' !! uuid = Some row /\
       exp_experiment_group row = Some (Records.experiment_id er) /\
       exp_prompt row = prompt er /\
       exp_response row = response er /\
       exp_model_provider row = provider_value (provider (model_configuration er)) /\
       exp_user_rating row = None /\
       exp_notes row = None /\
       (forall other, other <> uuid ->
          experiments db' !! other = experiments db !! other) /\
       get_experiment_count db' = S (get_experiment_count db) /\
       templates db' = templates db) /\
  (is_Some (experiments db !! uuid) ->
     save_experiment dumps db er uuid
     = Raise "UNIQUE constraint failed: experiments.id").
Proof.
  unfold save_experiment. split.
  - intros Hfree. rewrite Hfree. eexists. eexists.
    split; [reflexivity|]. cbn [experiments templates].
    split; [apply lookup_insert_eq|].
    repeat split.
    + intros other Hne. now apply lookup_insert_ne.
    + unfold get_experiment_count. cbn [experiments].
      now apply map_size_insert_None.
  - intros [row ->]. reflexivity.
Qed.

End Storage.

(** ** Endpoints over the data service *)

Section EndpointStatuses.
Import Models Records DataService.
Variable str_http : Z -> string -> string.
Variable dumps : gmap string pyval -> string.
Variable dumps_list : list string -> string.

Lemma update_rating_missing (db : database) (experiment_id : string)
    (rating : Z) (notes : option string) :
  experiments db !! experiment_id = None ->
  update_experiment_rating db experiment_id rating notes = (false, db).
Proof.
  intros H. unfold update_experiment_rating, row_exists. rewrite H.
  destruct db as [exps tpls]. cbn [templates experiments] in *.
  do 2 f_equal. apply map_eq. intros k.
  destruct (decide (experiment_id = k)) as [<-|Hne].
  - now rewrite lookup_alter_eq, H.
  - now apply lookup_alter_ne.
Qed.

(** X20.  The rating endpoint answers with success exactly when the rating is
    between 1 and 5 and the experiment exists.  Every other answer has
    status 500 and leaves the database as it was: the status 400 of the
    range check and the status 404 of the missing experiment are raised
    inside the [try] block, caught by its handler and turned into 500. *)
Theorem rating_endpoint_statuses (db : database) (experiment_id : string)
    (rating : Z) (notes : option string) :
  let answer :=
    Endpoints.update_experiment_rating str_http db experiment_id rating notes in
  (fst answer = Endpoints.Respond "Rating updated successfully" <->
     (1 <= rating <= 5)%Z /\ is_Some (experiments db !! experiment_id)) /\
  (forall status detail, fst answer = Endpoints.HTTPException status detail ->
     status = 500%Z /\ snd answer = db) /\
  (~ (1 <= rating <= 5)%Z ->
     fst answer = Endpoints.HTTPException 500
                    (str_http 400 "Rating must be between 1 and 5")) /\
  ((1 <= rating <= 5)%Z -> experiments db !! experiment_id = None ->
     fst answer = Endpoints.HTTPException 500
                    (str_http 404 "Experiment not found")) /\
  (fst answer = Endpoints.Respond "Rating updated successfully" ->
     snd answer = snd (update_experiment_rating db experiment_id rating notes)).
Proof.
  intros answer. subst answer. unfold Endpoints.update_experiment_rating.
  destruct ((1 <=? rating)%Z && (rating <=? 5)%Z) eqn:Hrange; cbn [negb].
  - apply andb_true_iff in Hrange as [H1 H5]. apply Z.leb_le in H1, H5.
    destruct (experiments db !! experiment_id) as [row|] eqn:Hrow.
    + assert (Hup : fst (update_experiment_rating db experiment_id rating notes)
                    = true).
      { unfold update_experiment_rating, row_exists. now rewrite Hrow. }
      destruct (update_experiment_rating db experiment_id rating notes)
        as [success db']. cbn [fst snd] in *. subst success.
      cbn [negb fst snd Endpoints.on_exception].
      split; [split; [intros _; split; [lia | eauto] | reflexivity]|].
      split; [discriminate|]. split; [intros H; exfalso; apply H; lia|].
      split; [discriminate | reflexivity].
    + rewrite (update_rating_missing _ _ _ _ Hrow).
      cbn [negb fst snd Endpoints.on_exception].
      split; [split; [discriminate | intros [_ [? ?]]; discriminate]|].
      split; [intros status detail H; injection H as <- _; now split|].
      split; [intros H; exfalso; apply H; lia|].
      split; [reflexivity | discriminate].
  - cbn [negb fst snd Endpoints.on_exception].
    assert (Hout : ~ (1 <= rating <= 5)%Z).
    { intros [H1 H5]. apply Z.leb_le in H1, H5. now rewrite H1, H5 in Hrange. }
    split; [split; [discriminate | intros [? _]; contradiction]|].
    split; [intros status detail H; injection H as <- _; now split|].
    split; [reflexivity|].
    split; [intros; contradiction | discriminate].
Qed.

(** X21.  The template endpoints: creating a template answers with the
    identifier under which it is stored, and deleting a template that does
    not exist answers with status 500, not 404, leaving the database as it
    was; deleting after creating succeeds. *)
Theorem template_endpoint_statuses (db : database) (template : PromptTemplate)
    (uuid now template_id : string) :
  let created := Endpoints.create_template str_http dumps_list db template uuid now in
  let deleted := Endpoints.delete_template str_http db template_id in
  fst created = Endpoints.Respond (template_id_of template uuid) /\
  is_Some (templates (snd created) !! template_id_of template uuid) /\
  (fst deleted = Endpoints.Respond "Template deleted successfully" <->
     is_Some (templates db !! template_id)) /\
  (templates db !! template_id = None ->
     deleted = (Endpoints.HTTPException 500 (str_http 404 "Template not found"), db)) /\
  (forall status detail, fst deleted = Endpoints.HTTPException status detail ->
     status = 500%Z) /\
  fst (Endpoints.delete_template str_http (snd created)
         (template_id_of template uuid))
  = Endpoints.Respond "Template deleted successfully".
Proof.
  intros created deleted. subst created deleted.
  unfold Endpoints.create_template, Endpoints.delete_template.
  unfold save_template, delete_template, row_exists.
  cbn [fst snd templates experiments Endpoints.on_exception].
  rewrite lookup_insert_eq. cbn [negb fst Endpoints.on_exception].
  split; [reflexivity|]. split; [eauto|].
  destruct (templates db !! template_id) as [row|] eqn:Hrow;
    cbn [negb fst snd Endpoints.on_exception].
  - split; [split; [eauto | reflexivity]|].
    split; [discriminate|]. split; [discriminate | reflexivity].
  - split; [split; [discriminate | intros [? ?]; discriminate]|].
    split; [|split; [intros status detail H; now injection H | reflexivity]].
    intros _. destruct db as [exps tpls]. cbn [templates experiments] in *.
    now rewrite (delete_id _ _ Hrow).
Qed.

(** X22.  Results saved in the background under identifiers that are pairwise
    distinct and free each add one row, whose group is the identifier of
    the experiment; the rows that were there stay.  A result whose
    identifier is taken is dropped without an error. *)
Theorem save_all_adds_rows (db : database)
    (tasks : list (ExperimentResult * string))
    (Hdistinct : NoDup (List.map snd tasks))
    (Hfree : Forall (fun task => experiments db !! snd task = None) tasks) :
  let db' := Background.save_all dumps db tasks in
  get_experiment_count db' = (get_experiment_count db + length tasks)%nat /\
  (forall er uuid, In (er, uuid) tasks ->
     exists row,
       experiments db' !! uuid = Some row /\
       exp_experiment_group row = Some (Records.experiment_id er) /\
       exp_response row = response er /\
       exp_user_rating row = None) /\
  (forall key row, experiments db !! key = Some row ->
     experiments db' !! key = Some row) /\
  templates db' = templates db /\
  (forall er uuid, is_Some (experiments db !! uuid) ->
     Background.save_experiment_background dumps db er uuid = db).
Proof.
  intros db'. subst db'.
  assert (Hmain :
    get_experiment_count (Background.save_all dumps db tasks)
    = (get_experiment_count db + length tasks)%nat /\
    (forall er uuid, In (er, uuid) tasks ->
       exists row,
         experiments (Background.save_all dumps db tasks) !! uuid = Some row /\
         exp_experiment_group row = Some (Records.experiment_id er) /\
         exp_response row = response er /\
         exp_user_rating row = None) /\
    (forall key row, experiments db !! key = Some row ->
       experiments (Background.save_all dumps db tasks) !! key = Some row) /\
    templates (Background.save_all dumps db tasks) = templates db).
  { revert db Hfree. induction tasks as [|[er uuid] tasks IH]; intros db Hfree.
    - cbn [Background.save_all fold_left length].
      split; [lia|]. split; [intros er uuid []|]. split; [auto | reflexivity].
    - inversion Hdistinct as [|? ? Hnew Hrest]; subst.
      inversion Hfree as [|? ? Hhere Hlater]; subst. cbn [snd] in Hhere.
      destruct (save_experiment_fresh dumps db er uuid Hhere)
        as [db1 [row [Hsave [Hrow [Hg [Hr [Hu [Hother [Hcount Htpl]]]]]]]]].
      assert (Hstep : Background.save_experiment_background dumps db er uuid = db1).
      { unfold Background.save_experiment_background. now rewrite Hsave. }
      assert (Hfree1 : Forall (fun task => experiments db1 !! snd task = None) tasks).
      { apply Forall_forall. intros t Ht. rewrite Forall_forall in Hlater.
        rewrite Hother; [now apply Hlater|].
        intros Heq. apply Hnew. rewrite <- Heq.
        apply list_elem_of_In, in_map, list_elem_of_In, Ht. }
      destruct (IH Hrest db1 Hfree1) as [Hc [Hrows [Hkeep Ht]]].
      change (Background.save_all dumps db ((er, uuid) :: tasks))
        with (Background.save_all dumps
                (Background.save_experiment_background dumps db er uuid) tasks).
      rewrite Hstep. split; [|split; [|split]].
      + rewrite Hc, Hcount. cbn [length]. lia.
      + intros er' uuid' [Heq | Hin].
        * injection Heq as <- <-. exists row.
          split; [now apply Hkeep | now repeat split].
        * now apply Hrows.
      + intros key r Hk. apply Hkeep. rewrite Hother; [exact Hk|].
        intros ->. congruence.
      + congruence. }
  destruct Hmain as [H1 [H2 [H3 H4]]].
  split; [exact H1|]. split; [exact H2|]. split; [exact H3|]. split; [exact H4|].
  intros er uuid [row Hrow]. unfold Background.save_experiment_background.
  unfold save_experiment. now rewrite Hrow.
Qed.

End EndpointStatuses.

Section EndpointWitnesses.
Import Models Records DataService.

Lemma save_all_adds_rows_witness :
  get_experiment_count
    (Background.save_all (fun _ => "")
       {| experiments := ∅; templates := ∅ |}
       [({| Records.experiment_id := "e1"; prompt := "p";
            model_configuration := Samples.gpt4; response := "first";
            metrics := ∅; timestamp := "t"; run_number := 1 |}, "a");
        ({| Records.experiment_id := "e1"; prompt := "p";
            model_configuration := Samples.gpt4; response := "second";
            metrics := ∅; timestamp := "t"; run_number := 2 |}, "b")])
  = 2%nat.
Proof.
  match goal with
  | |- get_experiment_count (Background.save_all _ ?db ?tasks) = _ =>
      destruct (save_all_adds_rows (fun _ => "") db tasks) as [H _]
  end.
  - cbn [List.map snd]. apply NoDup_cons. split; [|apply NoDup_singleton].
    intros H. apply list_elem_of_In in H. destruct H as [H | []]. discriminate.
  - repeat constructor.
  - exact H.
Defined.

End EndpointWitnesses.

(** ** Wrapped messages, additive cost, experiments under an outage *)

Section Outage.
Import PyStr Models Metrics LLMService Main.

Lemma lower_app (s t : string) : lower (s +:+ t) = lower s +:+ lower t.
Proof.
  induction s as [|c s IH]; [reflexivity|].
  rewrite append_cons. simpl. now rewrite IH.
Qed.

Lemma occurs_inside (k s pre post : string) :
  occurs k s -> occurs k (pre +:+ s +:+ post).
Proof.
  intros [a [b ->]]. exists (pre +:+ a), (b +:+ post).
  now rewrite !append_assoc.
Qed.

(** X23.  Wrapping the message of an error in more text never loses its
    fallback: a message classified Quota stays Quota, and a message
    classified Auth stays Auth or becomes Quota. *)
Theorem classification_survives_wrapping (e pre post : string) :
  (classify e = Quota -> classify (pre +:+ e +:+ post) = Quota) /\
  (classify e = Auth -> classify (pre +:+ e +:+ post) <> Other) /\
  (classify (pre +:+ e +:+ post) = Other -> classify e = Other).
Proof.
  assert (Hq : any_keyword quota_keywords (lower e) = true ->
               any_keyword quota_keywords (lower (pre +:+ e +:+ post)) = true).
  { rewrite !any_keyword_spec. intros [k [Hin Hocc]]. exists k. split; [exact Hin|].
    rewrite !lower_app. now apply occurs_inside. }
  assert (Ha : any_keyword auth_keywords (lower e) = true ->
               any_keyword auth_keywords (lower (pre +:+ e +:+ post)) = true).
  { rewrite !any_keyword_spec. intros [k [Hin Hocc]]. exists k. split; [exact Hin|].
    rewrite !lower_app. now apply occurs_inside. }
  unfold classify.
  destruct (any_keyword quota_keywords (lower e));
    [rewrite (Hq eq_refl); repeat split; congruence|].
  destruct (any_keyword auth_keywords (lower e)).
  - rewrite (Ha eq_refl).
    destruct (any_keyword quota_keywords (lower (pre +:+ e +:+ post)));
      repeat split; congruence.
  - repeat split; congruence.
Qed.


Lemma entry_of_run (svc : service) (worlds : nat -> nat -> world)
    (req : ExperimentRequest) (r : gmap string pyval) :
  In r (all_responses svc worlds req) ->
  exists i cfg run_num,
    model_configs req !! i = Some cfg /\ (run_num < num_runs req)%nat /\
    r = run_entry cfg run_num
          (generate_response svc (worlds i run_num) (prompt req) cfg).
Proof.
  unfold all_responses. intros Hr.
  apply in_concat in Hr as [l [Hl Hr]].
  apply list_elem_of_In, elem_of_lookup_imap in Hl as [i [cfg [-> Hi]]].
  apply in_map_iff in Hr as [run_num [<- Hk]].
  apply in_seq in Hk. exists i, cfg, run_num. repeat split; [exact Hi | lia].
Qed.

(** X25.  When demo mode is off and every provider call of an experiment fails
    with a quota or authentication message, no entry of the experiment
    records an error: every entry carries a response that opens with the
    fallback banner, and the summary reports a success rate of 1. *)
Theorem outage_is_masked (svc : service) (worlds : nat -> nat -> world)
    (req : ExperimentRequest)
    (Hlive : demo_mode svc = false)
    (Hruns : all_responses svc worlds req <> [])
    (Hout : forall i cfg run_num,
        model_configs req !! i = Some cfg -> (run_num < num_runs req)%nat ->
        exists e, call_provider svc (worlds i run_num) cfg = Raise e /\
                  classify e <> Other) :
  Forall (fun r => has_key "error" r = false /\
                   exists text, r !! "response" = Some (PStr text) /\
                                startswith fallback_banner text = true)
    (all_responses svc worlds req) /\
  aggregate_of "success_rate" (run_experiment svc worlds req) = Some (PNum 1) /\
  aggregate_of "total_responses" (run_experiment svc worlds req)
  = Some (PNum (PyNum.of_nat (length (model_configs req) * num_runs req))).
Proof.
  assert (Hall : Forall (fun r => has_key "error" r = false /\
                   exists text, r !! "response" = Some (PStr text) /\
                                startswith fallback_banner text = true)
                   (all_responses svc worlds req)).
  { apply Forall_forall. intros r Hr.
    apply list_elem_of_In, entry_of_run in Hr.
    destruct Hr as [i [cfg [run_num [Hi [Hk ->]]]]].
    destruct (Hout i cfg run_num Hi Hk) as [e [He Hc]].
    rewrite generate_response_cases, Hlive, He.
    destruct (classify e); try contradiction; cbn [run_entry];
      (split; [reflexivity|]); eexists; (split; [reflexivity|]);
      now apply (demo_is_fallback svc). }
  split; [exact Hall|].
  assert (Hfil : List.filter (fun r => negb (has_key "error" r))
                   (all_responses svc worlds req)
                 = all_responses svc worlds req).
  { clear -Hall. induction Hall as [|r l [Hr _] _ IH]; [reflexivity|].
    simpl. now rewrite Hr, IH. }
  assert (Herr : Forall (fun r => has_key "error" r = false)
                   (all_responses svc worlds req)).
  { eapply Forall_impl; [exact Hall|]. now intros r [H _]. }
  unfold run_experiment. rewrite Hfil.
  rewrite calculate_nonempty by exact Hruns.
  destruct (aggregate_keys_ok (all_responses svc worlds req) metrics_keys
              (fun _ H => H) (all_responses_numeric svc worlds req) ∅)
    as [aggregates ->].
  cbn [bind aggregate_of]. split.
  - rewrite lookup_insert_eq, (no_error_count _ Herr), ratio_one; [reflexivity|].
    destruct (all_responses svc worlds req); [contradiction | simpl; lia].
  - rewrite lookup_insert_ne by discriminate. rewrite lookup_insert_eq.
    do 3 f_equal. apply (rows_length _ (num_runs req)).
    intros i cfg. now rewrite length_map, length_seq.
Qed.

(** X26.  When demo mode is off and every provider call fails with a message
    that has no quota or authentication keyword, every entry records the
    error and the summary of the experiment is empty: it has no success
    rate at all. *)
Theorem all_failures_empty_summary (svc : service) (worlds : nat -> nat -> world)
    (req : ExperimentRequest)
    (Hlive : demo_mode svc = false)
    (Hout : forall i cfg run_num,
        model_configs req !! i = Some cfg -> (run_num < num_runs req)%nat ->
        exists e, call_provider svc (worlds i run_num) cfg = Raise e /\
                  classify e = Other) :
  Forall (fun r => exists e, r !! "error" = Some (PStr e) /\ classify e = Other)
    (all_responses svc worlds req) /\
  run_experiment svc worlds req = Ok (all_responses svc worlds req, ∅) /\
  aggregate_of "success_rate" (run_experiment svc worlds req) = None.
Proof.
  assert (Hall : Forall (fun r => exists e, r !! "error" = Some (PStr e) /\
                                            classify e = Other)
                   (all_responses svc worlds req)).
  { apply Forall_forall. intros r Hr.
    apply list_elem_of_In, entry_of_run in Hr.
    destruct Hr as [i [cfg [run_num [Hi [Hk ->]]]]].
    destruct (Hout i cfg run_num Hi Hk) as [e [He Hc]].
    rewrite generate_response_cases, Hlive, He, Hc. cbn [run_entry].
    exists e. split; [reflexivity | exact Hc]. }
  assert (Hfil : List.filter (fun r => negb (has_key "error" r))
                   (all_responses svc worlds req) = []).
  { clear -Hall. induction Hall as [|r l [e [Hr _]] _ IH]; [reflexivity|].
    simpl. unfold has_key at 1. now rewrite Hr. }
  split; [exact Hall|].
  unfold run_experiment. rewrite Hfil. cbn [calculate_aggregate_metrics bind].
  split; reflexivity.
Qed.

Lemma outage_is_masked_witness :
  aggregate_of "success_rate"
    (run_experiment Samples.live (fun _ _ => Samples.out_of_quota)
       Samples.three_runs) = Some (PNum 1).
Proof.
  apply (outage_is_masked Samples.live (fun _ _ => Samples.out_of_quota)
           Samples.three_runs).
  - reflexivity.
  - intros H. apply (f_equal (@length _)) in H. vm_compute in H. discriminate.
  - intros i cfg run_num Hi _. destruct i as [|i]; [|discriminate].
    injection Hi as <-. exists "Error code: 429 - insufficient_quota".
    split; [reflexivity | vm_compute; discriminate].
Defined.

Lemma all_failures_empty_summary_witness :
  run_experiment Samples.live (fun _ _ => Samples.unavailable) Samples.three_runs
  = Ok (all_responses Samples.live (fun _ _ => Samples.unavailable)
          Samples.three_runs, ∅).
Proof.
  apply (all_failures_empty_summary Samples.live (fun _ _ => Samples.unavailable)
           Samples.three_runs).
  - reflexivity.
  - intros i cfg run_num Hi _. destruct i as [|i]; [|discriminate].
    injection Hi as <-. exists "service unavailable".
    split; reflexivity.
Defined.

End Outage.
